(** * Unraid disk temperature monitoring: a shallow embedding of the two
      bash scripts that read disks.ini and send DogStatsD gauges.

    - [Slot]  embeds src/datadog/unraid_disk_temp_monitoring.sh (the
      slot + id + type schema: the identifier is the section label);
    - [Multi] embeds the multi-field revision of the same script (name, id,
      temp, type, device, transport, rotational: the identifier is the
      [name] key and the section header is only a delimiter).

    Strings are byte strings ([String.string]); the shell filters the
    scripts pipe their data through (echo, sed, tr, cut, the two regular
    expressions) are in [Shell], written out on bytes as the C locale
    reads them.  The globals of a script are a record, every function of a
    script is a state transformer on it, and the two side effects (the
    console log and the metric lines written to the UDP socket) are lists
    in the state, oldest first.  The timestamp that [log] puts before its message is left out
    of the logged line. *)

From Stdlib Require Import String Ascii List Bool Arith NArith Lia.
From Stdlib Require Import Decimal DecimalString.
Import ListNotations.

Local Open Scope list_scope.
Local Open Scope string_scope.

(* ================================================================= *)
(** ** Shell: the builtins and filters of the pipelines *)

Module Shell.

Definition dquote : ascii := "034"%char.
Definition LF : ascii := "010"%char.
Definition NUL : ascii := "000"%char.

Fixpoint all_chars (p : ascii -> bool) (s : string) : bool :=
  match s with
  | EmptyString => true
  | String c s' => p c && all_chars p s'
  end.

Fixpoint map_chars (f : ascii -> ascii) (s : string) : string :=
  match s with
  | EmptyString => EmptyString
  | String c s' => String (f c) (map_chars f s')
  end.

Definition is_empty (s : string) : bool :=
  match s with EmptyString => true | String _ _ => false end.

(** [[ -n $x ]] *)
Definition nonempty (s : string) : bool := negb (is_empty s).

(** *** echo $x |

    bash's builtin takes its first argument for options when it is a
    hyphen followed by one or more of the letters n, e, E, and then
    prints no text at all ([-n]) or an empty line ([-e], [-E]).  [echo x]
    is the one line the next stage of the pipeline reads; the command
    substitution around the pipeline drops the final newline. *)

Definition echo_flag (c : ascii) : bool :=
  ((c =? "n") || (c =? "e") || (c =? "E"))%char.

Definition is_echo_option (s : string) : bool :=
  match s with
  | String "-" (String c r) => echo_flag c && all_chars echo_flag r
  | _ => false
  end.

Definition echo (x : string) : string :=
  if is_echo_option x then EmptyString else x.

(** *** sed -e 's/^[[:space:]]*//' -e 's/[[:space:]]*$//' *)

Definition is_space (c : ascii) : bool :=
  match nat_of_ascii c with
  | 9 | 10 | 11 | 12 | 13 | 32 => true
  | _ => false
  end.

Fixpoint ltrim (s : string) : string :=
  match s with
  | EmptyString => EmptyString
  | String c s' => if is_space c then ltrim s' else s
  end.

Fixpoint rtrim (s : string) : string :=
  match s with
  | EmptyString => EmptyString
  | String c s' =>
      match rtrim s' with
      | EmptyString => if is_space c then EmptyString else String c EmptyString
      | r => String c r
      end
  end.

Definition sed_trim (s : string) : string := rtrim (ltrim s).

(** *** tr -d SET and tr '[:upper:]' '[:lower:]' *)

Fixpoint tr_d (del : ascii -> bool) (s : string) : string :=
  match s with
  | EmptyString => EmptyString
  | String c s' => if del c then tr_d del s' else String c (tr_d del s')
  end.

Definition is_dquote (c : ascii) : bool := (c =? dquote)%char.

(** the set of the script's tr -d: both brackets and the double quote *)
Definition is_bracket_or_dquote (c : ascii) : bool :=
  ((c =? "[") || (c =? "]") || (c =? dquote))%char.

Definition is_upper (c : ascii) : bool :=
  ((65 <=? nat_of_ascii c) && (nat_of_ascii c <=? 90))%nat.

Definition to_lower (c : ascii) : ascii :=
  if is_upper c then ascii_of_nat (nat_of_ascii c + 32) else c.

Definition tr_lower (s : string) : string := map_chars to_lower s.

(** *** cut -d'=' -f1, -f2 and -f2-

    A line without the delimiter is printed whole, whatever field is
    asked for. *)

Fixpoint cut_f1 (d : ascii) (s : string) : string :=
  match s with
  | EmptyString => EmptyString
  | String c s' => if (c =? d)%char then EmptyString else String c (cut_f1 d s')
  end.

Fixpoint after_delim (d : ascii) (s : string) : option string :=
  match s with
  | EmptyString => None
  | String c s' => if (c =? d)%char then Some s' else after_delim d s'
  end.

Definition cut_f2 (d : ascii) (s : string) : string :=
  match after_delim d s with
  | None => s
  | Some r => cut_f1 d r
  end.

Definition cut_f2_on (d : ascii) (s : string) : string :=
  match after_delim d s with
  | None => s
  | Some r => r
  end.

(** *** The two regular expressions of [[ ... =~ ... ]] *)

Fixpoint ends_with (suf s : string) : bool :=
  (s =? suf) ||
  match s with
  | EmptyString => false
  | String _ s' => ends_with suf s'
  end.

Definition hdr_open : string := String "[" (String dquote EmptyString).
Definition hdr_close : string := String dquote (String "]" EmptyString).

(** The section header pattern: an opening bracket and a double quote, one
    character or more, a double quote and a closing bracket. *)
Definition is_header (s : string) : bool :=
  match s with
  | String "[" (String q (String c r)) =>
      (q =? dquote)%char && ends_with hdr_close r
  | _ => false
  end.

Definition is_digit (c : ascii) : bool :=
  ((48 <=? nat_of_ascii c) && (nat_of_ascii c <=? 57))%nat.

(** ^[0-9]+$ *)
Definition all_digits (s : string) : bool :=
  nonempty s && all_chars is_digit s.

(** *** while IFS= read -r line; do ... done < file

    [read] hands over the text up to the next newline, without it, and skips
    NUL bytes.  At the end of the file it returns a failure status, so the
    loop body never sees text that no newline ends. *)

Fixpoint read_lines (content : string) : list string :=
  match content with
  | EmptyString => []
  | String c rest =>
      if (c =? LF)%char then EmptyString :: read_lines rest
      else if (c =? NUL)%char then read_lines rest
      else match read_lines rest with
           | [] => []
           | l :: ls => String c l :: ls
           end
  end.

(** A text file: every line ended by a newline. *)
Fixpoint unlines (ls : list string) : string :=
  match ls with
  | [] => EmptyString
  | l :: ls' => l ++ String LF (unlines ls')
  end.

Definition is_line_char (c : ascii) : bool :=
  negb (c =? LF)%char && negb (c =? NUL)%char.

(** A line as [read] can return it. *)
Definition is_line (l : string) : bool := all_chars is_line_char l.

(** ${n} of a shell integer *)
Definition decimal (n : nat) : string := NilEmpty.string_of_uint (Nat.to_uint n).

End Shell.

Import Shell.

(* ================================================================= *)
(** ** What both scripts share with their environment *)

(** One echo -n of a metric line onto /dev/udp/HOST/PORT: the text the
    command hands to the socket, whole.  The scripts send a metric by one
    such command and count and log it as one.  What then leaves as
    datagrams is the output buffer's matter: a text that fits its 4096 bytes
    leaves in one datagram, a longer one in several pieces.  The state
    records the writes, one for each metric; nothing below is said of the
    pieces. *)
Record udp_write : Type := UdpWrite {
  w_host : string;
  w_port : string;
  w_text : string
}.

(** The file at DISKS_INI as [ -f ] and the input redirection find it. *)
Inductive disks_ini : Type :=
| Absent
| Present (content : string).

(* ================================================================= *)
(** ** Multi: the multi-field script *)

Module Multi.

Definition DATADOG_HOST : string := "localhost".
Definition DATADOG_PORT : string := "8125".
Definition METRIC_PREFIX : string := "unraid.disk".
Definition LOG_ENABLED : string := "true".
Definition DISKS_INI : string := "/var/local/emhttp/disks.ini".

(** The seven current_* globals: the record in progress. *)
Record disk : Type := Disk {
  current_name : string;
  current_id : string;
  current_temp : string;
  current_type : string;
  current_device : string;
  current_transport : string;
  current_rotational : string
}.

(** The counter, the record in progress, the console lines and the writes
    to the UDP socket so far, one for each echo -n, in order. *)
Record state : Type := State {
  disk_count : nat;
  current : disk;
  stdout : list string;
  udp : list udp_write
}.

Definition with_current (d : disk) (st : state) : state :=
  State (disk_count st) d (stdout st) (udp st).

Definition log (msg : string) (st : state) : state :=
  if LOG_ENABLED =? "true"
  then State (disk_count st) (current st) (stdout st ++ [msg])%list (udp st)
  else st.

(** echo -n of the text onto /dev/udp/HOST/PORT: one write of the whole
    text is recorded, whatever its length; the datagrams it leaves in are
    not modelled. *)
Definition send (text : string) (st : state) : state :=
  State (disk_count st) (current st) (stdout st)
        (udp st ++ [UdpWrite DATADOG_HOST DATADOG_PORT text])%list.

Definition incr_disk_count (st : state) : state :=
  State (S (disk_count st)) (current st) (stdout st) (udp st).

(** *** process_metric *)

Definition metric_name : string := METRIC_PREFIX ++ ".temperature".

Definition type_tag (d : disk) : string := tr_lower (echo (current_type d)).

Definition sanitized_id (d : disk) : string := tr_lower (echo (current_id d)).

Definition drive_kind (d : disk) : string :=
  if current_rotational d =? "1" then "hdd"
  else if current_rotational d =? "0" then "ssd"
  else "".

(** The first assignment to tags. *)
Definition base_tags (d : disk) : string :=
  "disk_name:" ++ current_name d ++ ",disk_id:" ++ sanitized_id d ++
  ",disk_type:" ++ type_tag d ++ ",device:" ++ current_device d ++
  ",transport:" ++ current_transport d.

Definition tags (d : disk) : string :=
  if nonempty (drive_kind d)
  then base_tags d ++ ",drive_kind:" ++ drive_kind d
  else base_tags d.

Definition metric (d : disk) : string :=
  metric_name ++ ":" ++ current_temp d ++ "|g|#" ++ tags d.

Definition processing_msg (d : disk) : string :=
  "Processing: Name='" ++ current_name d ++ "', ID='" ++ current_id d ++
  "', Type='" ++ current_type d ++ "', Temp='" ++ current_temp d ++
  "', Device='" ++ current_device d ++ "', Rotational='" ++
  current_rotational d ++ "'".

Definition skipping_msg (d : disk) : string :=
  "Skipping disk '" ++ current_name d ++ "' because temperature ('" ++
  current_temp d ++ "') is not a valid number.".

Definition process_metric (st : state) : state :=
  let d := current st in
  if nonempty (current_name d) && nonempty (current_temp d) then
    if all_digits (current_temp d) then
      let st := log (processing_msg d) st in
      let st := send (metric d) st in
      let st := log ("Sent metric: " ++ metric d) st in
      incr_disk_count st
    else
      log (skipping_msg d) st
  else st.

(** *** The read loop *)

Definition empty_disk : disk := Disk "" "" "" "" "" "" "".

(** case $key in ... esac *)
Definition assign (key value : string) (d : disk) : disk :=
  let (n, i, t, ty, dev, tr, rot) := d in
  if key =? "name" then Disk value i t ty dev tr rot
  else if key =? "id" then Disk n value t ty dev tr rot
  else if key =? "temp" then Disk n i value ty dev tr rot
  else if key =? "type" then Disk n i t value dev tr rot
  else if key =? "device" then Disk n i t ty value tr rot
  else if key =? "transport" then Disk n i t ty dev value rot
  else if key =? "rotational" then Disk n i t ty dev tr value
  else d.

Definition clean (line : string) : string := sed_trim (echo line).

Definition key_of (clean_line : string) : string :=
  cut_f1 "=" (echo clean_line).

Definition value_of (clean_line : string) : string :=
  tr_d is_dquote (cut_f2_on "=" (echo clean_line)).

Definition step (st : state) (line : string) : state :=
  let clean_line := clean line in
  if is_header clean_line then
    with_current empty_disk (process_metric st)
  else
    let key := key_of clean_line in
    let value := value_of clean_line in
    with_current (assign key value (current st)) st.

Definition loop (lines : list string) (st : state) : state :=
  fold_left step lines st.

(** *** The script, top to bottom: exit status and final state *)

Definition initial : state := State 0 empty_disk [] [].

Definition main (f : disks_ini) : nat * state :=
  let st := log "--- Script execution started. ---" initial in
  match f with
  | Absent =>
      (1, log ("ERROR: " ++ DISKS_INI ++ " not found. Exiting.") st)
  | Present content =>
      let st := log ("Found disk info file, starting parsing: " ++ DISKS_INI) st in
      let st := loop (read_lines content) st in
      let st := process_metric st in
      let st := log ("Processed and sent metrics for " ++
                     decimal (disk_count st) ++ " disks.") st in
      let st := log "--- Script execution finished. ---" st in
      (0, st)
  end.

Definition written (st : state) : list string := map w_text (udp st).

End Multi.

(* ================================================================= *)
(** ** Slot: src/datadog/unraid_disk_temp_monitoring.sh *)

Module Slot.

Definition DATADOG_HOST : string := "localhost".
Definition DATADOG_PORT : string := "8125".
Definition METRIC_PREFIX : string := "unraid.disk".
Definition LOG_ENABLED : string := "true".
Definition DISKS_INI : string := "/var/local/emhttp/disks.ini".

(** The four current_* globals. *)
Record disk : Type := Disk {
  current_slot : string;
  current_id : string;
  current_temp : string;
  current_type : string
}.

(** The counter, the record in progress, the console lines and the writes
    to the UDP socket so far, one for each echo -n, in order. *)
Record state : Type := State {
  disk_count : nat;
  current : disk;
  stdout : list string;
  udp : list udp_write
}.

Definition with_current (d : disk) (st : state) : state :=
  State (disk_count st) d (stdout st) (udp st).

Definition log (msg : string) (st : state) : state :=
  if LOG_ENABLED =? "true"
  then State (disk_count st) (current st) (stdout st ++ [msg])%list (udp st)
  else st.

(** echo -n of the text onto /dev/udp/HOST/PORT: one write of the whole
    text is recorded, whatever its length; the datagrams it leaves in are
    not modelled. *)
Definition send (text : string) (st : state) : state :=
  State (disk_count st) (current st) (stdout st)
        (udp st ++ [UdpWrite DATADOG_HOST DATADOG_PORT text])%list.

Definition incr_disk_count (st : state) : state :=
  State (S (disk_count st)) (current st) (stdout st) (udp st).

(** *** process_metric *)

Definition metric_name : string := METRIC_PREFIX ++ ".temperature".

Definition type_tag (d : disk) : string := tr_lower (echo (current_type d)).

Definition tags (d : disk) : string :=
  "disk_slot:" ++ current_slot d ++ ",disk_id:" ++ current_id d ++
  ",disk_type:" ++ type_tag d.

Definition metric (d : disk) : string :=
  metric_name ++ ":" ++ current_temp d ++ "|g|#" ++ tags d.

Definition processing_msg (d : disk) : string :=
  "Processing: Slot='" ++ current_slot d ++ "', ID='" ++ current_id d ++
  "', Type='" ++ current_type d ++ "', Temp='" ++ current_temp d ++ "'".

Definition skipping_msg (d : disk) : string :=
  "Skipping disk '" ++ current_slot d ++ "' because temperature ('" ++
  current_temp d ++ "') is not a valid number.".

Definition process_metric (st : state) : state :=
  let d := current st in
  if nonempty (current_slot d) && nonempty (current_temp d) then
    if all_digits (current_temp d) then
      let st := log (processing_msg d) st in
      let st := send (metric d) st in
      let st := log ("Sent metric: " ++ metric d) st in
      incr_disk_count st
    else
      log (skipping_msg d) st
  else st.

(** *** The read loop *)

Definition empty_disk : disk := Disk "" "" "" "".

Definition clean (line : string) : string := sed_trim (echo line).

(** The label of a header line: tr -d of brackets and quotes. *)
Definition slot_of (clean_line : string) : string :=
  tr_d is_bracket_or_dquote (echo clean_line).

Definition value_of (clean_line : string) : string :=
  tr_d is_dquote (cut_f2 "=" (echo clean_line)).

(** The elif chain on id=*, temp=*, type=*. *)
Definition assign (clean_line : string) (d : disk) : disk :=
  let (sl, i, t, ty) := d in
  if prefix "id=" clean_line then Disk sl (value_of clean_line) t ty
  else if prefix "temp=" clean_line then Disk sl i (value_of clean_line) ty
  else if prefix "type=" clean_line then Disk sl i t (value_of clean_line)
  else d.

Definition step (st : state) (line : string) : state :=
  let clean_line := clean line in
  if is_header clean_line then
    with_current (Disk (slot_of clean_line) "" "" "") (process_metric st)
  else
    with_current (assign clean_line (current st)) st.

Definition loop (lines : list string) (st : state) : state :=
  fold_left step lines st.

(** *** The script, top to bottom: exit status and final state *)

Definition initial : state := State 0 empty_disk [] [].

Definition main (f : disks_ini) : nat * state :=
  let st := log "--- Script execution started. ---" initial in
  match f with
  | Absent =>
      (1, log ("ERROR: " ++ DISKS_INI ++ " not found. Exiting.") st)
  | Present content =>
      let st := log ("Found disk info file, starting parsing: " ++ DISKS_INI) st in
      let st := loop (read_lines content) st in
      let st := process_metric st in
      let st := log ("Processed and sent metrics for " ++
                     decimal (disk_count st) ++ " disks.") st in
      let st := log "--- Script execution finished. ---" st in
      (0, st)
  end.

Definition written (st : state) : list string := map w_text (udp st).

End Slot.

(* ================================================================= *)
(** ** Save: the file names of the image component (App)

    The two places where App looks at the name of the dropped file: onDrop
    picks the loader by its ending, handleSave offers the result under the
    name with its extension replaced.  A JavaScript string is the list of
    its UTF-16 code units; neither regular expression nor endsWith looks at
    more than single units. *)

Module Save.

Definition jstring : Type := list N.

(** A string literal of the source, all ASCII. *)
Definition units (s : string) : jstring :=
  map N_of_ascii (list_ascii_of_string s).

Definition dot : N := 46.
Definition slash : N := 47.

(** The class [^/.] *)
Definition in_class (u : N) : bool :=
  negb (u =? slash)%N && negb (u =? dot)%N.

(** The pattern /\.[^/.]+$/ tried at the first unit of [s]: a dot, then
    one unit or more of the class, up to the end. *)
Definition matches_here (s : jstring) : bool :=
  match s with
  | u :: (_ :: _) as rest => (u =? dot)%N && forallb in_class rest
  | _ => false
  end.

(** name.replace(/\.[^/.]+$/, ''): the pattern is tried at each position
    from the left; the first match, which runs to the end, is taken out. *)
Fixpoint replace_extension (s : jstring) : jstring :=
  match s with
  | [] => []
  | u :: rest => if matches_here s then [] else u :: replace_extension rest
  end.

(** link.download in handleSave *)
Definition download_name (name : jstring) : jstring :=
  (replace_extension name ++ units ".jpg")%list.

(** String.prototype.endsWith *)
Definition endsWith (s search : jstring) : bool :=
  (length search <=? length s)%nat &&
  forallb (fun p => (fst p =? snd p)%N)
          (combine (skipn (length s - length search) s) search).

Inductive loader : Type := EXRLoader | RGBELoader.

(** The loader of onDrop *)
Definition choose_loader (name : jstring) : loader :=
  if endsWith name (units ".exr") then EXRLoader else RGBELoader.

End Save.

(* ================================================================= *)
(** ** Vocabulary of the properties *)

(** A line that the loop of either script takes for a section header. *)
Definition header_line (l : string) : bool := is_header (sed_trim (echo l)).

(** A section of the file: its header line and the lines up to the next. *)
Record block : Type := Block {
  header : string;
  body : list string
}.

Definition wf_block (b : block) : bool :=
  header_line (header b) &&
  forallb (fun l => negb (header_line l)) (body b) &&
  forallb is_line (header b :: body b).

Definition render (bs : list block) : list string :=
  flat_map (fun b => header b :: body b) bs.

Definition file_of (bs : list block) : disks_ini := Present (unlines (render bs)).

(** A value between double quotes, as disks.ini writes them. *)
Definition quoted (v : string) : string := String dquote (v ++ String dquote "").

Definition no_upper (s : string) : bool := all_chars (fun c => negb (is_upper c)) s.

(** A tag value as the sanitization invariant wants it. *)
Definition tag_value_ok (v : string) : bool :=
  all_chars (fun c => negb (is_upper c) && negb (c =? ",")%char && negb (c =? ":")%char) v.

(** key:value pairs joined by commas, the tag list of a gauge line. *)
Fixpoint render_tags (kvs : list (string * string)) : string :=
  match kvs with
  | [] => ""
  | [(k, v)] => k ++ ":" ++ v
  | (k, v) :: rest => k ++ ":" ++ v ++ "," ++ render_tags rest
  end.

(** What the script leaves outside: exit status, counter, console, writes. *)
Definition Multi_observable (r : nat * Multi.state) :=
  (fst r, Multi.disk_count (snd r), Multi.stdout (snd r), Multi.udp (snd r)).

Definition Slot_observable (r : nat * Slot.state) :=
  (fst r, Slot.disk_count (snd r), Slot.stdout (snd r), Slot.udp (snd r)).

(** The three conditions process_metric tests, in one. *)
Definition Multi_valid (d : Multi.disk) : bool :=
  nonempty (Multi.current_name d) && nonempty (Multi.current_temp d) &&
  all_digits (Multi.current_temp d).

Definition Slot_valid (d : Slot.disk) : bool :=
  nonempty (Slot.current_slot d) && nonempty (Slot.current_temp d) &&
  all_digits (Slot.current_temp d).

(** The record a section leaves in the globals when its last line is read. *)
Definition Multi_record_of (b : block) : Multi.disk :=
  Multi.current (Multi.loop (header b :: body b) Multi.initial).

Definition Slot_record_of (b : block) : Slot.disk :=
  Slot.current (Slot.loop (header b :: body b) Slot.initial).

(** The gauge line of the output protocol, field by field:
    PRE.temperature:TEMP|g|#disk_name:NAME,disk_id:ID,disk_type:TYPE,
    device:DEV,transport:TRANSPORT and then KIND, the drive_kind tag with
    its comma or nothing.  A function of the fields: the text of a line is
    fixed by what stands in them. *)
Definition gauge_line (pre temp name id type dev transport kind : string) : string :=
  pre ++ ".temperature:" ++ temp ++ "|g|#disk_name:" ++ name ++
  ",disk_id:" ++ id ++ ",disk_type:" ++ type ++ ",device:" ++ dev ++
  ",transport:" ++ transport ++ kind.


(** The drive_kind tag a rotational value stands for: hdd for the string 1,
    ssd for the string 0, no tag for anything else. *)
Definition kind_tag (rotational : string) : list (string * string) :=
  if rotational =? "1" then [("drive_kind", "hdd")]
  else if rotational =? "0" then [("drive_kind", "ssd")]
  else [].

(** The same as the end of a gauge line. *)
Definition kind_suffix (rotational : string) : string :=
  if rotational =? "1" then ",drive_kind:hdd"
  else if rotational =? "0" then ",drive_kind:ssd"
  else "".

(** The field a recognized key of the multi-field schema is stored in. *)
Definition Multi_field (key : string) (d : Multi.disk) : option string :=
  if key =? "name" then Some (Multi.current_name d)
  else if key =? "id" then Some (Multi.current_id d)
  else if key =? "temp" then Some (Multi.current_temp d)
  else if key =? "type" then Some (Multi.current_type d)
  else if key =? "device" then Some (Multi.current_device d)
  else if key =? "transport" then Some (Multi.current_transport d)
  else if key =? "rotational" then Some (Multi.current_rotational d)
  else None.

Definition Slot_field (key : string) (d : Slot.disk) : option string :=
  if key =? "id" then Some (Slot.current_id d)
  else if key =? "temp" then Some (Slot.current_temp d)
  else if key =? "type" then Some (Slot.current_type d)
  else None.

(** The writes one call of process_metric adds for a record. *)
Definition Multi_emitted (d : Multi.disk) : list udp_write :=
  if Multi_valid d
  then [UdpWrite Multi.DATADOG_HOST Multi.DATADOG_PORT (Multi.metric d)]
  else [].

Definition Slot_emitted (d : Slot.disk) : list udp_write :=
  if Slot_valid d
  then [UdpWrite Slot.DATADOG_HOST Slot.DATADOG_PORT (Slot.metric d)]
  else [].

(** *** Sample inputs *)

Definition header_of (label : string) : string := "[" ++ quoted label ++ "]".

(** The first section of the scenario of the specification, with its name. *)
Definition disk1_block : block :=
  Block (header_of "disk1")
        [ "name=" ++ quoted "disk1"; "id=" ++ quoted "WD-1";
          "temp=" ++ quoted "38"; "type=" ++ quoted "Data";
          "rotational=" ++ quoted "1" ].

(** A second section: a solid-state device with every field. *)
Definition cache_block : block :=
  Block (header_of "cache")
        [ "name=" ++ quoted "cache"; "id=" ++ quoted "Samsung_SSD";
          "temp=" ++ quoted "41"; "type=" ++ quoted "Cache";
          "device=" ++ quoted "nvme0n1"; "transport=" ++ quoted "nvme";
          "rotational=" ++ quoted "0" ].

(** A section with a name and no temperature. *)
Definition no_temp_block : block :=
  Block (header_of "disk2") [ "name=" ++ quoted "disk2" ].

(** A section whose name has capitals, a comma and a colon. *)
Definition parity_block : block :=
  Block (header_of "parity")
        [ "name=" ++ quoted "Parity,1:A"; "temp=" ++ quoted "38" ].

(** Key and value lines with no header above them. *)
Definition headerless_lines : list string :=
  [ "name=" ++ quoted "disk1"; "temp=" ++ quoted "38" ].

Fixpoint drop_last (s : string) : string :=
  match s with
  | EmptyString => EmptyString
  | String c EmptyString => EmptyString
  | String c r => String c (drop_last r)
  end.

(** The quote stripping in the words of the specification (strip enclosing
    quote characters from the value), to set beside the filter of the
    scripts: a value that opens and closes with a double quote loses these
    two, and nothing else is touched. *)
Definition spec_strip_enclosing_quotes (v : string) : string :=
  match v with
  | String c r =>
      if (c =? dquote)%char && ends_with (String dquote "") r
      then drop_last r
      else v
  | EmptyString => EmptyString
  end.

(** A value with a double quote inside it: WD, a quote, Red. *)
Definition interior_quote_value : string := "WD" ++ String dquote "Red".

(** A section whose id is a word that echo takes for its option -n. *)
Definition dash_n_block : block :=
  Block (header_of "disk1")
        [ "name=" ++ quoted "disk1"; "id=" ++ quoted "-n"; "temp=" ++ quoted "38" ].

(** *** Vocabulary of the further properties *)

(** The console lines that report a metric line written. *)
Definition sent_lines (console : list string) : list string :=
  filter (prefix "Sent metric: ") console.

Definition has_no_newline (s : string) : bool :=
  all_chars (fun c => negb (c =? LF)%char) s.

(** Text made of the characters the sed filter trims. *)
Definition is_blank (ws : string) : bool := all_chars is_space ws.

(** The keys of the case statement of the multi-field script. *)
Definition Multi_recognized (key : string) : bool :=
  existsb (String.eqb key)
    ["name"; "id"; "temp"; "type"; "device"; "transport"; "rotational"].

(** A line the multi-field loop body does nothing with. *)
Definition Multi_ignored (l : string) : bool :=
  negb (header_line l) && negb (Multi_recognized (Multi.key_of (Multi.clean l))).

(** The branch of the elif chain of the slot script a clean line takes. *)
Definition Slot_key (clean_line : string) : string :=
  if prefix "id=" clean_line then "id"
  else if prefix "temp=" clean_line then "temp"
  else if prefix "type=" clean_line then "type"
  else "".

(** A line the slot loop body does nothing with. *)
Definition Slot_ignored (l : string) : bool :=
  negb (header_line l) && (Slot_key (Slot.clean l) =? "").

Definition has_no_equals (s : string) : bool :=
  all_chars (fun c => negb (c =? "=")%char) s.

(** A line that assigns the field of key [k]. *)
Definition Multi_sets (k l : string) : bool :=
  negb (header_line l) && (Multi.key_of (Multi.clean l) =? k).

Definition Slot_sets (k l : string) : bool :=
  negb (header_line l) && (Slot_key (Slot.clean l) =? k).

Definition count_headers (ls : list string) : nat :=
  length (filter header_line ls).

(** A name in which the extension pattern matches somewhere. *)
Fixpoint has_extension (name : Save.jstring) : bool :=
  match name with
  | [] => false
  | _ :: rest => Save.matches_here name || has_extension rest
  end.

(** *** Vocabulary of the metric lines written *)

Definition Multi_fields_no_newline (d : Multi.disk) : bool :=
  has_no_newline (Multi.current_name d) && has_no_newline (Multi.current_id d) &&
  has_no_newline (Multi.current_temp d) && has_no_newline (Multi.current_type d) &&
  has_no_newline (Multi.current_device d) &&
  has_no_newline (Multi.current_transport d) &&
  has_no_newline (Multi.current_rotational d).

Definition Slot_fields_no_newline (d : Slot.disk) : bool :=
  has_no_newline (Slot.current_slot d) && has_no_newline (Slot.current_id d) &&
  has_no_newline (Slot.current_temp d) && has_no_newline (Slot.current_type d).

(** The text of a file whose last line has no newline after it. *)
Definition unterminated (ls : list string) (last : string) : string :=
  unlines ls ++ last.

(** One section, cut before its temperature line. *)
Definition disk1_head : list string :=
  [ header_of "disk1"; "name=" ++ quoted "disk1" ].

(** A second section whose temperature is its last line. *)
Definition cache_short_block : block :=
  Block (header_of "cache")
        [ "name=" ++ quoted "cache"; "temp=" ++ quoted "41" ].

(** A write of the run of a script: the line of a record that passes the
    three tests of process_metric and whose fields, read from lines of the
    file, hold no newline. *)
Definition Multi_write_of_record (g : udp_write) : Prop :=
  exists d, Multi_valid d = true /\ Multi_fields_no_newline d = true /\
            g = UdpWrite Multi.DATADOG_HOST Multi.DATADOG_PORT (Multi.metric d).

Definition Slot_write_of_record (g : udp_write) : Prop :=
  exists d, Slot_valid d = true /\ Slot_fields_no_newline d = true /\
            g = UdpWrite Slot.DATADOG_HOST Slot.DATADOG_PORT (Slot.metric d).


(* ================================================================= *)
(** ** Facts about the shell filters *)

Lemma read_lines_line (l rest : string) :
  is_line l = true ->
  read_lines (l ++ String LF rest) = l :: read_lines rest.
Proof.
  induction l as [|c l IH]; simpl; intros H.
  - reflexivity.
  - apply andb_true_iff in H as [Hc Hl].
    unfold is_line_char in Hc. apply andb_true_iff in Hc as [H1 H2].
    apply negb_true_iff in H1. apply negb_true_iff in H2.
    rewrite H1, H2, (IH Hl). reflexivity.
Qed.

Lemma read_lines_unlines (ls : list string) :
  forallb is_line ls = true -> read_lines (unlines ls) = ls.
Proof.
  induction ls as [|l ls IH]; simpl; intros H.
  - reflexivity.
  - apply andb_true_iff in H as [Hl Hls].
    rewrite (read_lines_line _ _ Hl), (IH Hls). reflexivity.
Qed.

(** Text that no newline ends is never handed to the loop body. *)
Lemma read_lines_drops_unterminated (l : string) :
  is_line l = true -> read_lines l = [].
Proof.
  induction l as [|c l IH]; simpl; intros H.
  - reflexivity.
  - apply andb_true_iff in H as [Hc Hl].
    unfold is_line_char in Hc. apply andb_true_iff in Hc as [H1 H2].
    apply negb_true_iff in H1. apply negb_true_iff in H2.
    rewrite H1, H2, (IH Hl). reflexivity.
Qed.

Lemma to_lower_not_upper (c : ascii) : is_upper (to_lower c) = false.
Proof.
  destruct c as [[] [] [] [] [] [] [] []]; reflexivity.
Qed.

Lemma tr_lower_no_upper (s : string) : no_upper (tr_lower s) = true.
Proof.
  unfold no_upper, tr_lower.
  induction s as [|c s IH]; cbn [map_chars all_chars].
  - reflexivity.
  - rewrite to_lower_not_upper. exact IH.
Qed.

Lemma to_lower_other (c : ascii) : is_upper c = false -> to_lower c = c.
Proof. intros H. unfold to_lower. now rewrite H. Qed.

Lemma tr_lower_fixes_no_upper (s : string) :
  no_upper s = true -> tr_lower s = s.
Proof.
  unfold no_upper, tr_lower.
  induction s as [|c s IH]; cbn [map_chars all_chars]; intros H.
  - reflexivity.
  - apply andb_true_iff in H as [Hc Hs]. apply negb_true_iff in Hc.
    now rewrite (to_lower_other _ Hc), (IH Hs).
Qed.

Lemma tr_d_deletes (del : ascii -> bool) (s : string) :
  all_chars (fun c => negb (del c)) (tr_d del s) = true.
Proof.
  induction s as [|c s IH]; simpl.
  - reflexivity.
  - destruct (del c) eqn:E; simpl.
    + exact IH.
    + now rewrite E.
Qed.

Lemma tr_d_keeps (del : ascii -> bool) (s : string) :
  all_chars (fun c => negb (del c)) s = true -> tr_d del s = s.
Proof.
  induction s as [|c s IH]; simpl; intros H.
  - reflexivity.
  - apply andb_true_iff in H as [Hc Hs]. apply negb_true_iff in Hc.
    now rewrite Hc, (IH Hs).
Qed.

Lemma tr_d_app (del : ascii -> bool) (a b : string) :
  tr_d del (a ++ b) = tr_d del a ++ tr_d del b.
Proof.
  induction a as [|c a IH]; simpl.
  - reflexivity.
  - destruct (del c); simpl; now rewrite IH.
Qed.

Lemma ends_with_app (suf s : string) : ends_with suf (s ++ suf) = true.
Proof.
  induction s as [|c s IH]; cbn [append].
  - destruct suf; cbn [ends_with]; now rewrite String.eqb_refl.
  - cbn [ends_with]. rewrite IH. apply orb_true_r.
Qed.

Lemma ends_with_inv (suf s : string) :
  ends_with suf s = true -> exists p, s = p ++ suf.
Proof.
  induction s as [|c s IH]; cbn [ends_with]; intros H.
  - rewrite orb_false_r in H. apply String.eqb_eq in H. exists "". exact H.
  - apply orb_true_iff in H as [H|H].
    + apply String.eqb_eq in H. exists "". exact H.
    + destruct (IH H) as [p ->]. now exists (String c p).
Qed.

(** The header pattern, read as the regular expression reads it. *)
Lemma is_header_iff (s : string) :
  is_header s = true <->
  exists m, m <> "" /\ s = hdr_open ++ m ++ hdr_close.
Proof.
  split.
  - destruct s as [|a [|q [|c r]]]; try discriminate;
      try (destruct a as [[] [] [] [] [] [] [] []]; discriminate).
    destruct a as [[] [] [] [] [] [] [] []]; try discriminate.
    cbn [is_header]. intros H. apply andb_true_iff in H as [Hq Hr].
    apply Ascii.eqb_eq in Hq. subst q.
    destruct (ends_with_inv _ _ Hr) as [p ->].
    exists (String c p). split; [discriminate | reflexivity].
  - intros (m & Hm & ->). destruct m as [|c p]; [contradiction|].
    cbn [hdr_open append is_header]. rewrite Ascii.eqb_refl. apply ends_with_app.
Qed.

Lemma nonempty_true (s : string) : nonempty s = true <-> s <> "".
Proof.
  destruct s; simpl; split; intros H; try discriminate; try reflexivity.
  now contradiction H.
Qed.

Lemma rtrim_keeps (s : string) (c : ascii) :
  is_space c = false -> rtrim (s ++ String c "") = s ++ String c "".
Proof.
  intros Hc. induction s as [|a s IH]; simpl.
  - now rewrite Hc.
  - rewrite IH. destruct s; reflexivity.
Qed.

(* ================================================================= *)
(** ** Facts about the multi-field script *)

Lemma Multi_process_metric_cases (st : Multi.state) :
  let d := Multi.current st in
  (Multi_valid d = true /\
   Multi.process_metric st =
     Multi.State (S (Multi.disk_count st)) d
       ((Multi.stdout st ++ [Multi.processing_msg d]) ++
        [("Sent metric: " ++ Multi.metric d)%string])%list
       (Multi.udp st ++
        [UdpWrite Multi.DATADOG_HOST Multi.DATADOG_PORT (Multi.metric d)])%list) \/
  (nonempty (Multi.current_name d) && nonempty (Multi.current_temp d) = true /\
   all_digits (Multi.current_temp d) = false /\
   Multi.process_metric st =
     Multi.State (Multi.disk_count st) d
       (Multi.stdout st ++ [Multi.skipping_msg d])%list (Multi.udp st)) \/
  (nonempty (Multi.current_name d) && nonempty (Multi.current_temp d) = false /\
   Multi.process_metric st = st).
Proof.
  intros d. unfold Multi.process_metric, Multi_valid. fold d.
  destruct (nonempty (Multi.current_name d) && nonempty (Multi.current_temp d)) eqn:E1.
  - destruct (all_digits (Multi.current_temp d)) eqn:E2.
    + left. split; reflexivity.
    + right; left. repeat split; reflexivity.
  - right; right. split; reflexivity.
Qed.

Lemma Multi_udp_process_metric (st : Multi.state) :
  Multi.udp (Multi.process_metric st) =
  (Multi.udp st ++ Multi_emitted (Multi.current st))%list.
Proof.
  unfold Multi_emitted.
  destruct (Multi_process_metric_cases st) as [[V E]|[[N [D E]]|[N E]]];
    rewrite E; simpl.
  - now rewrite V.
  - unfold Multi_valid. rewrite N, D. simpl. now rewrite app_nil_r.
  - unfold Multi_valid. rewrite N. simpl. now rewrite app_nil_r.
Qed.

Lemma Multi_current_process_metric (st : Multi.state) :
  Multi.current (Multi.process_metric st) = Multi.current st.
Proof.
  destruct (Multi_process_metric_cases st) as [[V E]|[[N [D E]]|[N E]]];
    rewrite E; reflexivity.
Qed.

Lemma Multi_process_metric_invalid (st : Multi.state) :
  nonempty (Multi.current_temp (Multi.current st)) = false ->
  Multi.process_metric st = st.
Proof.
  intros H. unfold Multi.process_metric. rewrite H, andb_false_r. reflexivity.
Qed.

Lemma Multi_step_header (st : Multi.state) (l : string) :
  header_line l = true ->
  Multi.step st l = Multi.with_current Multi.empty_disk (Multi.process_metric st).
Proof.
  unfold header_line, Multi.step, Multi.clean. intros H. now rewrite H.
Qed.

Lemma Multi_step_body (st : Multi.state) (l : string) :
  header_line l = false ->
  Multi.step st l =
  Multi.with_current
    (Multi.assign (Multi.key_of (Multi.clean l)) (Multi.value_of (Multi.clean l))
                  (Multi.current st)) st.
Proof.
  unfold header_line, Multi.step, Multi.clean. intros H. now rewrite H.
Qed.

Lemma Multi_loop_cons (l : string) (ls : list string) (st : Multi.state) :
  Multi.loop (l :: ls) st = Multi.loop ls (Multi.step st l).
Proof. reflexivity. Qed.

Lemma Multi_loop_app (a b : list string) (st : Multi.state) :
  Multi.loop (a ++ b) st = Multi.loop b (Multi.loop a st).
Proof. apply fold_left_app. Qed.

(** Lines that are no header change the record in progress and nothing else,
    and what they make of it depends on nothing else. *)
Lemma Multi_loop_body (ls : list string) :
  forallb (fun l => negb (header_line l)) ls = true ->
  forall st,
    Multi.loop ls st = Multi.with_current (Multi.current (Multi.loop ls st)) st /\
    forall st', Multi.current st' = Multi.current st ->
                Multi.current (Multi.loop ls st') = Multi.current (Multi.loop ls st).
Proof.
  induction ls as [|l ls IH]; simpl; intros H st.
  - split; [now destruct st | auto].
  - apply andb_true_iff in H as [Hl Hls]. apply negb_true_iff in Hl.
    destruct (IH Hls (Multi.step st l)) as [E C].
    split.
    + rewrite E at 1. rewrite (Multi_step_body _ _ Hl). reflexivity.
    + intros st' Hst'. apply C.
      rewrite !(Multi_step_body _ _ Hl). simpl. now rewrite Hst'.
Qed.

(** A well-formed section, read from any state: the record before it is
    flushed, and the section's own record is left in the globals. *)
Lemma Multi_loop_block (b : block) (st : Multi.state) :
  wf_block b = true ->
  Multi.loop (header b :: body b) st =
  Multi.with_current (Multi_record_of b) (Multi.process_metric st).
Proof.
  unfold wf_block, Multi_record_of. intros H.
  apply andb_true_iff in H as [H _]. apply andb_true_iff in H as [Hh Hb].
  rewrite !Multi_loop_cons, !(Multi_step_header _ _ Hh).
  set (s1 := Multi.with_current Multi.empty_disk (Multi.process_metric st)).
  set (s0 := Multi.with_current Multi.empty_disk (Multi.process_metric Multi.initial)).
  destruct (Multi_loop_body _ Hb s1) as [E C].
  rewrite E, (C s0 eq_refl). reflexivity.
Qed.

Lemma Multi_loop_blocks (bs : list block) :
  forallb wf_block bs = true ->
  forall st,
    Multi.udp (Multi.process_metric (Multi.loop (render bs) st)) =
    (Multi.udp (Multi.process_metric st) ++
     flat_map (fun b => Multi_emitted (Multi_record_of b)) bs)%list.
Proof.
  induction bs as [|b bs IH]; intros H st.
  - simpl. now rewrite app_nil_r.
  - simpl in H. apply andb_true_iff in H as [Hb Hbs].
    change (render (b :: bs)) with ((header b :: body b) ++ render bs)%list.
    rewrite Multi_loop_app, (Multi_loop_block _ _ Hb), (IH Hbs).
    rewrite Multi_udp_process_metric. simpl.
    now rewrite <- app_assoc.
Qed.

(** The writes of a run are those already made followed by those of the
    same run started with nothing sent. *)
Lemma Multi_loop_frame (ls : list string) :
  forall st,
    Multi.udp (Multi.loop ls st) =
    (Multi.udp st ++
     Multi.udp (Multi.loop ls (Multi.with_current (Multi.current st) Multi.initial)))%list.
Proof.
  induction ls as [|l ls IH]; intros st.
  - simpl. now rewrite app_nil_r.
  - simpl. rewrite (IH (Multi.step st l)).
    rewrite (IH (Multi.step (Multi.with_current (Multi.current st) Multi.initial) l)).
    destruct (header_line l) eqn:Hl.
    + rewrite !(Multi_step_header _ _ Hl). simpl.
      rewrite !Multi_udp_process_metric. simpl.
      now rewrite <- app_assoc.
    + rewrite !(Multi_step_body _ _ Hl). simpl.
      reflexivity.
Qed.

(* ================================================================= *)
(** ** Facts about the slot script *)

Lemma Slot_process_metric_cases (st : Slot.state) :
  let d := Slot.current st in
  (Slot_valid d = true /\
   Slot.process_metric st =
     Slot.State (S (Slot.disk_count st)) d
       ((Slot.stdout st ++ [Slot.processing_msg d]) ++
        [("Sent metric: " ++ Slot.metric d)%string])%list
       (Slot.udp st ++
        [UdpWrite Slot.DATADOG_HOST Slot.DATADOG_PORT (Slot.metric d)])%list) \/
  (nonempty (Slot.current_slot d) && nonempty (Slot.current_temp d) = true /\
   all_digits (Slot.current_temp d) = false /\
   Slot.process_metric st =
     Slot.State (Slot.disk_count st) d
       (Slot.stdout st ++ [Slot.skipping_msg d])%list (Slot.udp st)) \/
  (nonempty (Slot.current_slot d) && nonempty (Slot.current_temp d) = false /\
   Slot.process_metric st = st).
Proof.
  intros d. unfold Slot.process_metric, Slot_valid. fold d.
  destruct (nonempty (Slot.current_slot d) && nonempty (Slot.current_temp d)) eqn:E1.
  - destruct (all_digits (Slot.current_temp d)) eqn:E2.
    + left. split; reflexivity.
    + right; left. repeat split; reflexivity.
  - right; right. split; reflexivity.
Qed.

Lemma Slot_udp_process_metric (st : Slot.state) :
  Slot.udp (Slot.process_metric st) =
  (Slot.udp st ++ Slot_emitted (Slot.current st))%list.
Proof.
  unfold Slot_emitted.
  destruct (Slot_process_metric_cases st) as [[V E]|[[N [D E]]|[N E]]];
    rewrite E; simpl.
  - now rewrite V.
  - unfold Slot_valid. rewrite N, D. simpl. now rewrite app_nil_r.
  - unfold Slot_valid. rewrite N. simpl. now rewrite app_nil_r.
Qed.

Lemma Slot_current_process_metric (st : Slot.state) :
  Slot.current (Slot.process_metric st) = Slot.current st.
Proof.
  destruct (Slot_process_metric_cases st) as [[V E]|[[N [D E]]|[N E]]];
    rewrite E; reflexivity.
Qed.

Lemma Slot_process_metric_invalid (st : Slot.state) :
  nonempty (Slot.current_temp (Slot.current st)) = false ->
  Slot.process_metric st = st.
Proof.
  intros H. unfold Slot.process_metric. rewrite H, andb_false_r. reflexivity.
Qed.

Lemma Slot_step_header (st : Slot.state) (l : string) :
  header_line l = true ->
  Slot.step st l =
  Slot.with_current (Slot.Disk (Slot.slot_of (Slot.clean l)) "" "" "")
                    (Slot.process_metric st).
Proof.
  unfold header_line, Slot.step, Slot.clean. intros H. now rewrite H.
Qed.

Lemma Slot_step_body (st : Slot.state) (l : string) :
  header_line l = false ->
  Slot.step st l =
  Slot.with_current (Slot.assign (Slot.clean l) (Slot.current st)) st.
Proof.
  unfold header_line, Slot.step, Slot.clean. intros H. now rewrite H.
Qed.

Lemma Slot_loop_cons (l : string) (ls : list string) (st : Slot.state) :
  Slot.loop (l :: ls) st = Slot.loop ls (Slot.step st l).
Proof. reflexivity. Qed.

Lemma Slot_loop_app (a b : list string) (st : Slot.state) :
  Slot.loop (a ++ b) st = Slot.loop b (Slot.loop a st).
Proof. apply fold_left_app. Qed.

(** Lines that are no header change the record in progress and nothing else,
    and what they make of it depends on nothing else. *)
Lemma Slot_loop_body (ls : list string) :
  forallb (fun l => negb (header_line l)) ls = true ->
  forall st,
    Slot.loop ls st = Slot.with_current (Slot.current (Slot.loop ls st)) st /\
    forall st', Slot.current st' = Slot.current st ->
                Slot.current (Slot.loop ls st') = Slot.current (Slot.loop ls st).
Proof.
  induction ls as [|l ls IH]; simpl; intros H st.
  - split; [now destruct st | auto].
  - apply andb_true_iff in H as [Hl Hls]. apply negb_true_iff in Hl.
    destruct (IH Hls (Slot.step st l)) as [E C].
    split.
    + rewrite E at 1. rewrite (Slot_step_body _ _ Hl). reflexivity.
    + intros st' Hst'. apply C.
      rewrite !(Slot_step_body _ _ Hl). simpl. now rewrite Hst'.
Qed.

(** A well-formed section, read from any state: the record before it is
    flushed, and the section's own record is left in the globals. *)
Lemma Slot_loop_block (b : block) (st : Slot.state) :
  wf_block b = true ->
  Slot.loop (header b :: body b) st =
  Slot.with_current (Slot_record_of b) (Slot.process_metric st).
Proof.
  unfold wf_block, Slot_record_of. intros H.
  apply andb_true_iff in H as [H _]. apply andb_true_iff in H as [Hh Hb].
  rewrite !Slot_loop_cons, !(Slot_step_header _ _ Hh).
  set (d := Slot.Disk (Slot.slot_of (Slot.clean (header b))) "" "" "").
  set (s1 := Slot.with_current d (Slot.process_metric st)).
  set (s0 := Slot.with_current d (Slot.process_metric Slot.initial)).
  destruct (Slot_loop_body _ Hb s1) as [E C].
  rewrite E, (C s0 eq_refl). reflexivity.
Qed.

Lemma Slot_loop_blocks (bs : list block) :
  forallb wf_block bs = true ->
  forall st,
    Slot.udp (Slot.process_metric (Slot.loop (render bs) st)) =
    (Slot.udp (Slot.process_metric st) ++
     flat_map (fun b => Slot_emitted (Slot_record_of b)) bs)%list.
Proof.
  induction bs as [|b bs IH]; intros H st.
  - simpl. now rewrite app_nil_r.
  - simpl in H. apply andb_true_iff in H as [Hb Hbs].
    change (render (b :: bs)) with ((header b :: body b) ++ render bs)%list.
    rewrite Slot_loop_app, (Slot_loop_block _ _ Hb), (IH Hbs).
    rewrite Slot_udp_process_metric. simpl.
    now rewrite <- app_assoc.
Qed.

(** The writes of a run are those already made followed by those of the
    same run started with nothing sent. *)
Lemma Slot_loop_frame (ls : list string) :
  forall st,
    Slot.udp (Slot.loop ls st) =
    (Slot.udp st ++
     Slot.udp (Slot.loop ls (Slot.with_current (Slot.current st) Slot.initial)))%list.
Proof.
  induction ls as [|l ls IH]; intros st.
  - simpl. now rewrite app_nil_r.
  - simpl. rewrite (IH (Slot.step st l)).
    rewrite (IH (Slot.step (Slot.with_current (Slot.current st) Slot.initial) l)).
    destruct (header_line l) eqn:Hl.
    + rewrite !(Slot_step_header _ _ Hl). simpl.
      rewrite !Slot_udp_process_metric. simpl.
      now rewrite <- app_assoc.
    + rewrite !(Slot_step_body _ _ Hl). simpl.
      reflexivity.
Qed.

(* ================================================================= *)
(** ** The properties *)

Lemma read_lines_are_lines (content : string) :
  forallb is_line (read_lines content) = true.
Proof.
  induction content as [|c rest IH]; simpl.
  - reflexivity.
  - destruct (c =? LF)%char eqn:E1.
    + simpl. exact IH.
    + destruct (c =? NUL)%char eqn:E2.
      * exact IH.
      * destruct (read_lines rest) as [|l ls]; [reflexivity|].
        cbn [forallb] in *. apply andb_true_iff in IH as [IH1 IH2].
        rewrite IH2, andb_true_r. unfold is_line in *. cbn [all_chars].
        rewrite IH1, andb_true_r. unfold is_line_char. now rewrite E1, E2.
Qed.

Lemma forallb_is_line_app (a b : list string) :
  forallb is_line a = true -> forallb is_line b = true ->
  forallb is_line (a ++ b) = true.
Proof. intros Ha Hb. rewrite forallb_app, Ha, Hb. reflexivity. Qed.

Lemma render_are_lines (bs : list block) :
  forallb wf_block bs = true -> forallb is_line (render bs) = true.
Proof.
  induction bs as [|b bs IH]; intros H.
  - reflexivity.
  - cbn [forallb] in H. apply andb_true_iff in H as [Hb Hbs].
    unfold wf_block in Hb. apply andb_true_iff in Hb as [_ Hb].
    change (render (b :: bs)) with ((header b :: body b) ++ render bs)%list.
    apply forallb_is_line_app; [exact Hb | exact (IH Hbs)].
Qed.

(** The whole script on a file of well-formed sections: what is sent is what
    each section's record gives, section after section. *)
Lemma Multi_main_blocks (bs : list block) :
  forallb wf_block bs = true ->
  Multi.udp (snd (Multi.main (file_of bs))) =
  flat_map (fun b => Multi_emitted (Multi_record_of b)) bs.
Proof.
  intros H. unfold file_of, Multi.main. cbv zeta.
  rewrite (read_lines_unlines _ (render_are_lines _ H)).
  cbn [snd]. unfold Multi.log at 1 2. cbn [Multi.udp Multi.LOG_ENABLED String.eqb Ascii.eqb Bool.eqb].
  rewrite (Multi_loop_blocks _ H). reflexivity.
Qed.

Lemma Slot_main_blocks (bs : list block) :
  forallb wf_block bs = true ->
  Slot.udp (snd (Slot.main (file_of bs))) =
  flat_map (fun b => Slot_emitted (Slot_record_of b)) bs.
Proof.
  intros H. unfold file_of, Slot.main. cbv zeta.
  rewrite (read_lines_unlines _ (render_are_lines _ H)).
  cbn [snd]. unfold Slot.log at 1 2. cbn [Slot.udp Slot.LOG_ENABLED String.eqb Ascii.eqb Bool.eqb].
  rewrite (Slot_loop_blocks _ H). reflexivity.
Qed.

(** The flush at the end of the input, on the lines the loop has read.
    Whatever the file, exit status, counter, console and writes are those
    of the file made of the lines read followed by one more header line;
    and a file of one well-formed section, every line of it ended by a
    newline, whose record has an identifier and an all-digit temperature,
    sends exactly one metric, that of the section.  Both scripts. *)
Lemma flush_after_the_lines_read (content hdr : string) (b : block) :
  is_line hdr = true ->
  header_line hdr = true ->
  wf_block b = true ->
  Multi_observable (Multi.main (Present content)) =
    Multi_observable (Multi.main (Present (unlines (read_lines content ++ [hdr])))) /\
  Slot_observable (Slot.main (Present content)) =
    Slot_observable (Slot.main (Present (unlines (read_lines content ++ [hdr])))) /\
  (Multi_valid (Multi_record_of b) = true ->
   Multi.written (snd (Multi.main (file_of [b]))) =
     [Multi.metric (Multi_record_of b)]) /\
  (Slot_valid (Slot_record_of b) = true ->
   Slot.written (snd (Slot.main (file_of [b]))) =
     [Slot.metric (Slot_record_of b)]).
Proof.
  intros Hl Hh Hb.
  assert (Hls : forallb is_line (read_lines content ++ [hdr]) = true).
  { apply forallb_is_line_app; [apply read_lines_are_lines | simpl; now rewrite Hl]. }
  assert (Hbs : forallb wf_block [b] = true) by (simpl; now rewrite Hb).
  repeat split.
  - unfold Multi.main. cbv zeta.
    rewrite (read_lines_unlines _ Hls), Multi_loop_app.
    set (s := Multi.loop (read_lines content) _).
    change (Multi.loop [hdr] s) with (Multi.step s hdr).
    rewrite (Multi_step_header _ _ Hh).
    rewrite (Multi_process_metric_invalid (Multi.with_current _ _)) by reflexivity.
    reflexivity.
  - unfold Slot.main. cbv zeta.
    rewrite (read_lines_unlines _ Hls), Slot_loop_app.
    set (s := Slot.loop (read_lines content) _).
    change (Slot.loop [hdr] s) with (Slot.step s hdr).
    rewrite (Slot_step_header _ _ Hh).
    rewrite (Slot_process_metric_invalid (Slot.with_current _ _)) by reflexivity.
    reflexivity.
  - intros V. unfold Multi.written.
    rewrite (Multi_main_blocks _ Hbs). simpl.
    unfold Multi_emitted. rewrite V. reflexivity.
  - intros V. unfold Slot.written.
    rewrite (Slot_main_blocks _ Hbs). simpl.
    unfold Slot_emitted. rewrite V. reflexivity.
Qed.

Lemma Multi_written_all_valid (bs : list block) :
  forallb (fun b => Multi_valid (Multi_record_of b)) bs = true ->
  map w_text (flat_map (fun b => Multi_emitted (Multi_record_of b)) bs) =
  map (fun b => Multi.metric (Multi_record_of b)) bs.
Proof.
  induction bs as [|b bs IH]; cbn [forallb flat_map map]; intros H.
  - reflexivity.
  - apply andb_true_iff in H as [V Vs].
    unfold Multi_emitted at 1. rewrite V.
    simpl. f_equal. exact (IH Vs).
Qed.

Lemma Slot_written_all_valid (bs : list block) :
  forallb (fun b => Slot_valid (Slot_record_of b)) bs = true ->
  map w_text (flat_map (fun b => Slot_emitted (Slot_record_of b)) bs) =
  map (fun b => Slot.metric (Slot_record_of b)) bs.
Proof.
  induction bs as [|b bs IH]; cbn [forallb flat_map map]; intros H.
  - reflexivity.
  - apply andb_true_iff in H as [V Vs].
    unfold Slot_emitted at 1. rewrite V.
    simpl. f_equal. exact (IH Vs).
Qed.

(** A file of N well-formed sections, every line of it ended by a newline,
    each section leaving a record with a non-empty identifier and an
    all-digit temperature, sends exactly N metrics: the metric of each
    section, in the order of the sections.  Both scripts. *)
Lemma one_metric_per_terminated_section (bs : list block) :
  forallb wf_block bs = true ->
  (forallb (fun b => Multi_valid (Multi_record_of b)) bs = true ->
   Multi.written (snd (Multi.main (file_of bs))) =
     map (fun b => Multi.metric (Multi_record_of b)) bs /\
   length (Multi.udp (snd (Multi.main (file_of bs)))) = length bs) /\
  (forallb (fun b => Slot_valid (Slot_record_of b)) bs = true ->
   Slot.written (snd (Slot.main (file_of bs))) =
     map (fun b => Slot.metric (Slot_record_of b)) bs /\
   length (Slot.udp (snd (Slot.main (file_of bs)))) = length bs).
Proof.
  intros W. split; intros V.
  - assert (E : Multi.written (snd (Multi.main (file_of bs))) =
                map (fun b => Multi.metric (Multi_record_of b)) bs).
    { unfold Multi.written.
      now rewrite (Multi_main_blocks _ W), (Multi_written_all_valid _ V). }
    split; [exact E|].
    unfold Multi.written in E.
    rewrite <- (length_map w_text), E. apply length_map.
  - assert (E : Slot.written (snd (Slot.main (file_of bs))) =
                map (fun b => Slot.metric (Slot_record_of b)) bs).
    { unfold Slot.written.
      now rewrite (Slot_main_blocks _ W), (Slot_written_all_valid _ V). }
    split; [exact E|].
    unfold Slot.written in E.
    rewrite <- (length_map w_text), E. apply length_map.
Qed.

(** C3, as the scripts have it: process_metric sends a metric exactly when
    the identifier is non-empty, the temperature is non-empty and the
    temperature is all digits.  A record with both fields set and a
    temperature that is not all digits is dropped with one logged line; a
    record with an empty identifier or an empty temperature is dropped with
    nothing logged, the state is left as it was.  In every case the lines
    after the next header send what they would send from a fresh start.
    Both scripts. *)
Theorem C3_metric_iff_record_valid
    (st : Multi.state) (st' : Slot.state) (hdr : string) (rest : list string) :
  header_line hdr = true ->
  let d := Multi.current st in
  let d' := Slot.current st' in
  ((Multi_valid d = true <->
    Multi.current_name d <> "" /\ Multi.current_temp d <> "" /\
    all_digits (Multi.current_temp d) = true) /\
   (Multi_valid d = true ->
    Multi.udp (Multi.process_metric st) =
      (Multi.udp st ++
       [UdpWrite Multi.DATADOG_HOST Multi.DATADOG_PORT (Multi.metric d)])%list) /\
   (Multi_valid d = false ->
    Multi.udp (Multi.process_metric st) = Multi.udp st) /\
   (Multi.current_name d <> "" -> Multi.current_temp d <> "" ->
    all_digits (Multi.current_temp d) = false ->
    Multi.stdout (Multi.process_metric st) =
      (Multi.stdout st ++ [Multi.skipping_msg d])%list) /\
   (Multi.current_name d = "" \/ Multi.current_temp d = "" ->
    Multi.process_metric st = st) /\
   Multi.udp (Multi.loop (hdr :: rest) st) =
     (Multi.udp (Multi.process_metric st) ++
      Multi.udp (Multi.loop rest Multi.initial))%list) /\
  ((Slot_valid d' = true <->
    Slot.current_slot d' <> "" /\ Slot.current_temp d' <> "" /\
    all_digits (Slot.current_temp d') = true) /\
   (Slot_valid d' = true ->
    Slot.udp (Slot.process_metric st') =
      (Slot.udp st' ++
       [UdpWrite Slot.DATADOG_HOST Slot.DATADOG_PORT (Slot.metric d')])%list) /\
   (Slot_valid d' = false ->
    Slot.udp (Slot.process_metric st') = Slot.udp st') /\
   (Slot.current_slot d' <> "" -> Slot.current_temp d' <> "" ->
    all_digits (Slot.current_temp d') = false ->
    Slot.stdout (Slot.process_metric st') =
      (Slot.stdout st' ++ [Slot.skipping_msg d'])%list) /\
   (Slot.current_slot d' = "" \/ Slot.current_temp d' = "" ->
    Slot.process_metric st' = st') /\
   Slot.udp (Slot.loop (hdr :: rest) st') =
     (Slot.udp (Slot.process_metric st') ++
      Slot.udp (Slot.loop rest
                  (Slot.with_current
                     (Slot.Disk (Slot.slot_of (Slot.clean hdr)) "" "" "")
                     Slot.initial)))%list).
Proof.
  intros Hh d d'. split.
  - split; [|split; [|split; [|split; [|split]]]].
    + unfold Multi_valid. rewrite !andb_true_iff, !nonempty_true. tauto.
    + intros V. rewrite Multi_udp_process_metric. unfold Multi_emitted.
      fold d. now rewrite V.
    + intros V. rewrite Multi_udp_process_metric. unfold Multi_emitted.
      fold d. rewrite V. apply app_nil_r.
    + intros Hn Ht Hd. unfold Multi.process_metric. fold d.
      apply nonempty_true in Hn. apply nonempty_true in Ht.
      rewrite Hn, Ht, Hd. reflexivity.
    + intros H. unfold Multi.process_metric. fold d.
      destruct H as [H|H]; rewrite H; simpl; [|rewrite andb_false_r]; reflexivity.
    + rewrite Multi_loop_cons, (Multi_step_header _ _ Hh), Multi_loop_frame.
      reflexivity.
  - split; [|split; [|split; [|split; [|split]]]].
    + unfold Slot_valid. rewrite !andb_true_iff, !nonempty_true. tauto.
    + intros V. rewrite Slot_udp_process_metric. unfold Slot_emitted.
      fold d'. now rewrite V.
    + intros V. rewrite Slot_udp_process_metric. unfold Slot_emitted.
      fold d'. rewrite V. apply app_nil_r.
    + intros Hn Ht Hd. unfold Slot.process_metric. fold d'.
      apply nonempty_true in Hn. apply nonempty_true in Ht.
      rewrite Hn, Ht, Hd. reflexivity.
    + intros H. unfold Slot.process_metric. fold d'.
      destruct H as [H|H]; rewrite H; simpl; [|rewrite andb_false_r]; reflexivity.
    + rewrite Slot_loop_cons, (Slot_step_header _ _ Hh), Slot_loop_frame.
      reflexivity.
Qed.

Lemma C3_metric_iff_record_valid_witness :
  header_line (header_of "disk2") = true /\
  Multi.udp (Multi.process_metric
               (Multi.with_current (Multi_record_of disk1_block) Multi.initial)) =
    [ UdpWrite "localhost" "8125"
        "unraid.disk.temperature:38|g|#disk_name:disk1,disk_id:wd-1,disk_type:data,device:,transport:,drive_kind:hdd" ] /\
  Slot.udp (Slot.process_metric
              (Slot.with_current (Slot_record_of disk1_block) Slot.initial)) =
    [ UdpWrite "localhost" "8125"
        "unraid.disk.temperature:38|g|#disk_slot:disk1,disk_id:WD-1,disk_type:data" ].
Proof.
  destruct (C3_metric_iff_record_valid
              (Multi.with_current (Multi_record_of disk1_block) Multi.initial)
              (Slot.with_current (Slot_record_of disk1_block) Slot.initial)
              (header_of "disk2") [] eq_refl)
    as ((_ & M & _) & (_ & S & _)).
  exact (conj eq_refl (conj (M eq_refl) (S eq_refl))).
Defined.

(** C3 as stated fails where a record has no temperature: it is dropped, and
    no reason is logged.  The console of a run over one such section holds
    the four lines every run prints. *)
Lemma C3_counterexample :
  Multi_valid (Multi_record_of no_temp_block) = false /\
  Multi.stdout (snd (Multi.main (file_of [no_temp_block]))) =
    [ "--- Script execution started. ---";
      "Found disk info file, starting parsing: /var/local/emhttp/disks.ini";
      "Processed and sent metrics for 0 disks.";
      "--- Script execution finished. ---" ] /\
  Slot_valid (Slot_record_of no_temp_block) = false /\
  Slot.stdout (snd (Slot.main (file_of [no_temp_block]))) =
    [ "--- Script execution started. ---";
      "Found disk info file, starting parsing: /var/local/emhttp/disks.ini";
      "Processed and sent metrics for 0 disks.";
      "--- Script execution finished. ---" ].
Proof. repeat split. Qed.

(** C8: without the input file the script exits with status 1 and sends
    nothing; with it, whatever it holds, the script reads it to the end,
    prints its closing line and exits with status 0.  Both scripts. *)
Theorem C8_exit_status (content : string) :
  (fst (Multi.main Absent) = 1 /\ Multi.udp (snd (Multi.main Absent)) = [] /\
   fst (Multi.main (Present content)) = 0 /\
   last (Multi.stdout (snd (Multi.main (Present content)))) "" =
     "--- Script execution finished. ---") /\
  (fst (Slot.main Absent) = 1 /\ Slot.udp (snd (Slot.main Absent)) = [] /\
   fst (Slot.main (Present content)) = 0 /\
   last (Slot.stdout (snd (Slot.main (Present content)))) "" =
     "--- Script execution finished. ---").
Proof.
  split; (split; [reflexivity|split; [reflexivity|split; [reflexivity|]]]).
  - unfold Multi.main. cbv zeta. cbn [snd]. unfold Multi.log at 1.
    cbn [Multi.stdout Multi.LOG_ENABLED String.eqb Ascii.eqb Bool.eqb].
    apply last_last.
  - unfold Slot.main. cbv zeta. cbn [snd]. unfold Slot.log at 1.
    cbn [Slot.stdout Slot.LOG_ENABLED String.eqb Ascii.eqb Bool.eqb].
    apply last_last.
Qed.

Lemma string_app_assoc (a b c : string) : (a ++ b) ++ c = a ++ (b ++ c).
Proof. induction a as [|x a IH]; simpl; [reflexivity | now rewrite IH]. Qed.

Lemma string_app_nil_r (a : string) : a ++ "" = a.
Proof. induction a as [|x a IH]; simpl; [reflexivity | now rewrite IH]. Qed.

Lemma Multi_drive_kind_cases (d : Multi.disk) :
  (Multi.current_rotational d = "1" /\ Multi.drive_kind d = "hdd") \/
  (Multi.current_rotational d = "0" /\ Multi.drive_kind d = "ssd") \/
  (Multi.current_rotational d <> "1" /\ Multi.current_rotational d <> "0" /\
   Multi.drive_kind d = "").
Proof.
  unfold Multi.drive_kind.
  destruct (String.eqb_spec (Multi.current_rotational d) "1") as [E1|N1].
  - left. now split.
  - destruct (String.eqb_spec (Multi.current_rotational d) "0") as [E0|N0].
    + right; left. now split.
    + right; right. now repeat split.
Qed.

Lemma Multi_tags_suffix (d : Multi.disk) :
  Multi.tags d =
    Multi.base_tags d ++
    (if Multi.current_rotational d =? "1" then ",drive_kind:hdd"
     else if Multi.current_rotational d =? "0" then ",drive_kind:ssd"
     else "").
Proof.
  unfold Multi.tags, Multi.drive_kind.
  destruct (Multi.current_rotational d =? "1"); [reflexivity|].
  destruct (Multi.current_rotational d =? "0"); [reflexivity|].
  simpl. now rewrite string_app_nil_r.
Qed.

(** C2 as stated fails on a name with capitals, a comma and a colon: the
    name goes into the line written as it was read, in both scripts. *)
Lemma C2_counterexample :
  Multi.written (snd (Multi.main (file_of [parity_block]))) =
    [ "unraid.disk.temperature:38|g|#disk_name:Parity,1:A,disk_id:,disk_type:,device:,transport:" ] /\
  Multi.current_name (Multi_record_of parity_block) = "Parity,1:A" /\
  tag_value_ok "Parity,1:A" = false /\
  Slot.written (snd (Slot.main (file_of [Block (header_of "Parity,1:A") [ "temp=38" ]]))) =
    [ "unraid.disk.temperature:38|g|#disk_slot:Parity,1:A,disk_id:,disk_type:" ].
Proof.
  split; [reflexivity|]. split; [reflexivity|]. split; reflexivity.
Qed.

Lemma Slot_assign_keeps_slot (l : string) (d : Slot.disk) :
  Slot.current_slot (Slot.assign l d) = Slot.current_slot d.
Proof.
  destruct d as [sl i t ty]. unfold Slot.assign.
  destruct (prefix "id=" l); [reflexivity|].
  destruct (prefix "temp=" l); [reflexivity|].
  destruct (prefix "type=" l); reflexivity.
Qed.

Lemma Slot_body_keeps_slot (ls : list string) :
  forallb (fun l => negb (header_line l)) ls = true ->
  forall st,
    Slot.current_slot (Slot.current (Slot.loop ls st)) =
    Slot.current_slot (Slot.current st).
Proof.
  induction ls as [|l ls IH]; cbn [forallb]; intros H st; [reflexivity|].
  apply andb_true_iff in H as [Hl Hls]. apply negb_true_iff in Hl.
  rewrite Slot_loop_cons, (IH Hls), (Slot_step_body _ _ Hl).
  apply Slot_assign_keeps_slot.
Qed.

(** C7, as the scripts have it: on a file with no header line the slot
    script sends nothing, its identifier being the label of a header; the
    multi-field script still flushes at the end of the input the record that
    the lines have filled, and sends its metric, one and no more, when that
    record has a name and an all-digit temperature. *)
Theorem C7_file_without_header (content : string) :
  forallb (fun l => negb (header_line l)) (read_lines content) = true ->
  Slot.udp (snd (Slot.main (Present content))) = [] /\
  Multi.udp (snd (Multi.main (Present content))) =
    Multi_emitted (Multi.current (Multi.loop (read_lines content) Multi.initial)) /\
  length (Multi.udp (snd (Multi.main (Present content)))) <= 1.
Proof.
  intros H.
  assert (M : Multi.udp (snd (Multi.main (Present content))) =
              Multi_emitted (Multi.current (Multi.loop (read_lines content) Multi.initial))).
  { unfold Multi.main. cbv zeta. cbn [snd]. unfold Multi.log at 1 2.
    cbn [Multi.udp Multi.LOG_ENABLED String.eqb Ascii.eqb Bool.eqb].
    rewrite Multi_udp_process_metric.
    set (s0 := Multi.log _ (Multi.log _ Multi.initial)).
    destruct (Multi_loop_body _ H s0) as [E C].
    rewrite E. cbn [Multi.with_current Multi.udp Multi.current].
    rewrite (C Multi.initial eq_refl). reflexivity. }
  split; [|split; [exact M|]].
  - unfold Slot.main. cbv zeta. cbn [snd]. unfold Slot.log at 1 2.
    cbn [Slot.udp Slot.LOG_ENABLED String.eqb Ascii.eqb Bool.eqb].
    set (s0 := Slot.log _ (Slot.log _ Slot.initial)).
    rewrite Slot_udp_process_metric.
    destruct (Slot_loop_body _ H s0) as [E _].
    unfold Slot_emitted, Slot_valid.
    rewrite (Slot_body_keeps_slot _ H s0).
    rewrite E. reflexivity.
  - rewrite M. unfold Multi_emitted.
    destruct (Multi_valid _); simpl; lia.
Qed.

Lemma C7_file_without_header_witness :
  forallb (fun l => negb (header_line l)) (read_lines (unlines headerless_lines)) = true /\
  Slot.udp (snd (Slot.main (Present (unlines headerless_lines)))) = [] /\
  Multi.udp (snd (Multi.main (Present (unlines headerless_lines)))) =
    [ UdpWrite "localhost" "8125"
        "unraid.disk.temperature:38|g|#disk_name:disk1,disk_id:,disk_type:,device:,transport:" ].
Proof.
  destruct (C7_file_without_header (unlines headerless_lines) eq_refl) as (S & M & _).
  exact (conj eq_refl (conj S M)).
Defined.

(** C7 as stated fails on the multi-field script: a name line and a
    temperature line with no header line anywhere still send one metric. *)
Lemma C7_counterexample :
  forallb (fun l => negb (header_line l)) headerless_lines = true /\
  read_lines (unlines headerless_lines) = headerless_lines /\
  Multi.written (snd (Multi.main (Present (unlines headerless_lines)))) =
    [ "unraid.disk.temperature:38|g|#disk_name:disk1,disk_id:,disk_type:,device:,transport:" ].
Proof. repeat split. Qed.

Lemma clean_fixed (l body : string) :
  l = body ++ String dquote "" -> echo l = l -> ltrim l = l ->
  sed_trim (echo l) = l.
Proof.
  intros Hb He Hl. unfold sed_trim. rewrite He, Hl, Hb.
  apply rtrim_keeps. reflexivity.
Qed.

Lemma tr_d_quoted (inner : string) :
  tr_d is_dquote (quoted inner) = tr_d is_dquote inner.
Proof.
  unfold quoted. cbn [tr_d]. change (is_dquote dquote) with true. cbv iota.
  rewrite tr_d_app. cbn [tr_d]. change (is_dquote dquote) with true. cbv iota.
  apply string_app_nil_r.
Qed.

Lemma tr_d_cut_quoted (inner : string) :
  tr_d is_dquote (cut_f1 "=" (quoted inner)) = tr_d is_dquote (cut_f1 "=" inner).
Proof.
  unfold quoted. cbn [cut_f1]. change (dquote =? "=")%char with false. cbv iota.
  cbn [tr_d]. change (is_dquote dquote) with true. cbv iota.
  induction inner as [|c inner IH]; cbn [append cut_f1].
  - change (dquote =? "=")%char with false. cbv iota.
    cbn [tr_d]. change (is_dquote dquote) with true. reflexivity.
  - destruct (c =? "=")%char; [reflexivity|].
    cbn [tr_d]. destruct (is_dquote c); now rewrite IH.
Qed.

Lemma drop_last_app (s : string) (c : ascii) : drop_last (s ++ String c "") = s.
Proof.
  induction s as [|a s IH]; cbn [append drop_last]; [reflexivity|].
  rewrite IH. destruct s; reflexivity.
Qed.

Lemma spec_strip_quoted (inner : string) :
  spec_strip_enclosing_quotes (quoted inner) = inner.
Proof.
  unfold spec_strip_enclosing_quotes, quoted.
  rewrite ends_with_app, Ascii.eqb_refl. apply drop_last_app.
Qed.

Lemma Multi_step_assignment (st : Multi.state) (key inner l : string) :
  l = (key ++ "=" ++ String dquote inner) ++ String dquote "" ->
  echo l = l -> ltrim l = l -> is_header l = false ->
  cut_f1 "=" l = key -> cut_f2_on "=" l = quoted inner ->
  Multi.step st l =
  Multi.with_current (Multi.assign key (tr_d is_dquote inner) (Multi.current st)) st.
Proof.
  intros Hb He Hl Hh Hk Hv.
  unfold Multi.step, Multi.clean, Multi.key_of, Multi.value_of.
  rewrite (clean_fixed _ _ Hb He Hl), Hh, He, Hk, Hv, tr_d_quoted. reflexivity.
Qed.

Lemma Multi_step_quoted (st : Multi.state) (key inner : string) :
  In key ["name"; "id"; "temp"; "type"; "device"; "transport"; "rotational"] ->
  Multi.step st (key ++ "=" ++ quoted inner) =
  Multi.with_current (Multi.assign key (tr_d is_dquote inner) (Multi.current st)) st /\
  Multi_field key (Multi.assign key (tr_d is_dquote inner) (Multi.current st)) =
  Some (tr_d is_dquote inner).
Proof.
  intros H. cbn [In] in H.
  repeat (destruct H as [<-|H];
          [split; [apply Multi_step_assignment; reflexivity
                  | destruct (Multi.current st); reflexivity] |]).
  contradiction.
Qed.

Lemma Slot_step_assignment (st : Slot.state) (key inner l : string) :
  l = (key ++ "=" ++ String dquote inner) ++ String dquote "" ->
  echo l = l -> ltrim l = l -> is_header l = false ->
  cut_f2 "=" l = cut_f1 "=" (quoted inner) ->
  Slot.step st l = Slot.with_current (Slot.assign l (Slot.current st)) st /\
  Slot.value_of l = tr_d is_dquote (cut_f1 "=" inner).
Proof.
  intros Hb He Hl Hh Hv.
  unfold Slot.step, Slot.clean, Slot.value_of.
  rewrite (clean_fixed _ _ Hb He Hl), Hh, He, Hv, tr_d_cut_quoted. split; reflexivity.
Qed.

Lemma Slot_step_quoted (st : Slot.state) (key inner : string) :
  In key ["id"; "temp"; "type"] ->
  Slot_field key (Slot.current (Slot.step st (key ++ "=" ++ quoted inner))) =
  Some (tr_d is_dquote (cut_f1 "=" inner)).
Proof.
  intros H. cbn [In] in H.
  repeat (destruct H as [<-|H];
          [match goal with
           | |- context [Slot.step st (?k ++ ?r)] =>
               destruct (Slot_step_assignment st k inner (k ++ r)
                           eq_refl eq_refl eq_refl eq_refl eq_refl) as [E V];
               rewrite E; rewrite <- V
           end; destruct (Slot.current st); reflexivity |]).
  contradiction.
Qed.

(** C9, as the scripts have it: a line key=value for a recognized key, its
    value between double quotes, records the value with every double quote
    deleted, those inside it as well as the two around it, and every other
    character kept in its place; the slot script also stops the value at
    its first equals sign. *)
Theorem C9_every_quote_is_deleted
    (st : Multi.state) (st' : Slot.state) (key inner : string) :
  In key ["name"; "id"; "temp"; "type"; "device"; "transport"; "rotational"] ->
  Multi_field key (Multi.current (Multi.step st (key ++ "=" ++ quoted inner))) =
    Some (tr_d is_dquote inner) /\
  all_chars (fun c => negb (is_dquote c)) (tr_d is_dquote inner) = true /\
  (all_chars (fun c => negb (is_dquote c)) inner = true ->
   tr_d is_dquote inner = spec_strip_enclosing_quotes (quoted inner)) /\
  (In key ["id"; "temp"; "type"] ->
   Slot_field key (Slot.current (Slot.step st' (key ++ "=" ++ quoted inner))) =
     Some (tr_d is_dquote (cut_f1 "=" inner))).
Proof.
  intros H. destruct (Multi_step_quoted st key inner H) as [E F].
  split; [|split; [|split]].
  - rewrite E. exact F.
  - apply tr_d_deletes.
  - intros Hq. rewrite (tr_d_keeps _ _ Hq). symmetry. apply spec_strip_quoted.
  - apply Slot_step_quoted.
Qed.

Lemma C9_every_quote_is_deleted_witness :
  In "name" ["name"; "id"; "temp"; "type"; "device"; "transport"; "rotational"] /\
  Multi_field "name"
    (Multi.current (Multi.step Multi.initial ("name" ++ "=" ++ quoted interior_quote_value))) =
    Some "WDRed".
Proof.
  exact (conj (or_introl eq_refl)
           (proj1 (C9_every_quote_is_deleted Multi.initial Slot.initial
                     "name" interior_quote_value (or_introl eq_refl)))).
Defined.

(** C9 as stated fails on a value with a double quote inside it: between
    its two enclosing quotes the value is WD, a quote, Red, and both scripts
    record WDRed. *)
Lemma C9_counterexample :
  spec_strip_enclosing_quotes (quoted interior_quote_value) = interior_quote_value /\
  Multi.current_name
    (Multi.current (Multi.step Multi.initial ("name=" ++ quoted interior_quote_value))) =
    "WDRed" /\
  Slot.current_id
    (Slot.current (Slot.step Slot.initial ("id=" ++ quoted interior_quote_value))) =
    "WDRed" /\
  "WDRed" <> interior_quote_value.
Proof.
  split; [reflexivity|]. split; [reflexivity|]. split; [reflexivity|].
  discriminate.
Qed.

(** Where echo prints its argument, the disk_id value is the id with every
    capital letter replaced by its small letter and every other character,
    the hyphen among them, left as it is. *)
Lemma Multi_sanitized_id_lowercases (d : Multi.disk) :
  is_echo_option (Multi.current_id d) = false ->
  Multi.sanitized_id d = map_chars to_lower (Multi.current_id d) /\
  to_lower "-" = "-"%char /\
  (forall c, is_upper c = false -> to_lower c = c) /\
  (forall c, is_upper c = true ->
             nat_of_ascii (to_lower c) = nat_of_ascii c + 32).
Proof.
  intros H. unfold Multi.sanitized_id, echo. rewrite H.
  split; [reflexivity|]. split; [reflexivity|]. split; [apply to_lower_other|].
  intros c. destruct c as [[] [] [] [] [] [] [] []]; intros U;
    try discriminate U; reflexivity.
Qed.

(** C10 at an id that echo takes for an option: the id recorded is -n, its
    lowercase form is -n, and the payload sent carries an empty disk_id. *)
Theorem C10_disk_id_of_an_echo_option :
  Multi.current_id (Multi_record_of dash_n_block) = "-n" /\
  tr_lower "-n" = "-n" /\
  Multi.sanitized_id (Multi_record_of dash_n_block) = "" /\
  Multi.written (snd (Multi.main (file_of [dash_n_block]))) =
    [ "unraid.disk.temperature:38|g|#disk_name:disk1,disk_id:,disk_type:,device:,transport:" ].
Proof.
  split; [reflexivity|]. split; [reflexivity|]. split; reflexivity.
Qed.

(* ================================================================= *)
(** ** Further properties of the two scripts *)

(** *** The counter and the console *)

Lemma Multi_count_process_metric (st : Multi.state) :
  Multi.disk_count st = length (Multi.udp st) ->
  Multi.disk_count (Multi.process_metric st) =
  length (Multi.udp (Multi.process_metric st)).
Proof.
  intros H.
  destruct (Multi_process_metric_cases st) as [[V E]|[[N [D E]]|[N E]]];
    rewrite E; cbn [Multi.disk_count Multi.udp]; [|exact H|exact H].
  rewrite length_app, H. simpl. lia.
Qed.

Lemma Multi_count_loop (ls : list string) :
  forall st,
    Multi.disk_count st = length (Multi.udp st) ->
    Multi.disk_count (Multi.loop ls st) = length (Multi.udp (Multi.loop ls st)).
Proof.
  induction ls as [|l ls IH]; intros st H; [exact H|].
  rewrite Multi_loop_cons. apply IH.
  destruct (header_line l) eqn:Hl.
  - rewrite (Multi_step_header _ _ Hl). apply (Multi_count_process_metric _ H).
  - rewrite (Multi_step_body _ _ Hl). exact H.
Qed.

Lemma Slot_count_process_metric (st : Slot.state) :
  Slot.disk_count st = length (Slot.udp st) ->
  Slot.disk_count (Slot.process_metric st) =
  length (Slot.udp (Slot.process_metric st)).
Proof.
  intros H.
  destruct (Slot_process_metric_cases st) as [[V E]|[[N [D E]]|[N E]]];
    rewrite E; cbn [Slot.disk_count Slot.udp]; [|exact H|exact H].
  rewrite length_app, H. simpl. lia.
Qed.

Lemma Slot_count_loop (ls : list string) :
  forall st,
    Slot.disk_count st = length (Slot.udp st) ->
    Slot.disk_count (Slot.loop ls st) = length (Slot.udp (Slot.loop ls st)).
Proof.
  induction ls as [|l ls IH]; intros st H; [exact H|].
  rewrite Slot_loop_cons. apply IH.
  destruct (header_line l) eqn:Hl.
  - rewrite (Slot_step_header _ _ Hl). apply (Slot_count_process_metric _ H).
  - rewrite (Slot_step_body _ _ Hl). exact H.
Qed.

(** X1: disk_count counts the metric lines written.  At the end of every
    run over an existing file the counter is the number of metric lines the
    script has written to the UDP socket, one echo -n each, and the console
    holds the summary line with that number.  Both scripts. *)
Theorem X1_counter_is_number_sent (content : string) :
  (Multi.disk_count (snd (Multi.main (Present content))) =
     length (Multi.udp (snd (Multi.main (Present content)))) /\
   In ("Processed and sent metrics for " ++
       decimal (length (Multi.udp (snd (Multi.main (Present content))))) ++
       " disks.")
      (Multi.stdout (snd (Multi.main (Present content))))) /\
  (Slot.disk_count (snd (Slot.main (Present content))) =
     length (Slot.udp (snd (Slot.main (Present content)))) /\
   In ("Processed and sent metrics for " ++
       decimal (length (Slot.udp (snd (Slot.main (Present content))))) ++
       " disks.")
      (Slot.stdout (snd (Slot.main (Present content))))).
Proof.
  split.
  - unfold Multi.main. cbv zeta. cbn [snd].
    set (s := Multi.process_metric (Multi.loop _ _)).
    assert (H : Multi.disk_count s = length (Multi.udp s)).
    { apply Multi_count_process_metric, Multi_count_loop. reflexivity. }
    unfold Multi.log.
    cbn [Multi.disk_count Multi.udp Multi.stdout Multi.LOG_ENABLED
         String.eqb Ascii.eqb Bool.eqb].
    split; [exact H|]. rewrite <- H.
    apply in_or_app. left. apply in_or_app. right. now left.
  - unfold Slot.main. cbv zeta. cbn [snd].
    set (s := Slot.process_metric (Slot.loop _ _)).
    assert (H : Slot.disk_count s = length (Slot.udp s)).
    { apply Slot_count_process_metric, Slot_count_loop. reflexivity. }
    unfold Slot.log.
    cbn [Slot.disk_count Slot.udp Slot.stdout Slot.LOG_ENABLED
         String.eqb Ascii.eqb Bool.eqb].
    split; [exact H|]. rewrite <- H.
    apply in_or_app. left. apply in_or_app. right. now left.
Qed.

Lemma sent_lines_app (a b : list string) :
  sent_lines (a ++ b) = (sent_lines a ++ sent_lines b)%list.
Proof. apply filter_app. Qed.

Lemma Multi_console_process_metric (st : Multi.state) :
  sent_lines (Multi.stdout st) =
    map (fun p => "Sent metric: " ++ p) (Multi.written st) ->
  sent_lines (Multi.stdout (Multi.process_metric st)) =
    map (fun p => "Sent metric: " ++ p) (Multi.written (Multi.process_metric st)).
Proof.
  intros H. unfold Multi.written in *.
  destruct (Multi_process_metric_cases st) as [[V E]|[[N [D E]]|[N E]]];
    rewrite E; cbn [Multi.stdout Multi.udp]; [| |exact H].
  - rewrite !sent_lines_app, !map_app, H.
    replace (sent_lines [Multi.processing_msg (Multi.current st)]) with (@nil string)
      by reflexivity.
    rewrite app_nil_r. reflexivity.
  - rewrite sent_lines_app, H.
    replace (sent_lines [Multi.skipping_msg (Multi.current st)]) with (@nil string)
      by reflexivity.
    apply app_nil_r.
Qed.

Lemma Multi_console_loop (ls : list string) :
  forall st,
    sent_lines (Multi.stdout st) =
      map (fun p => "Sent metric: " ++ p) (Multi.written st) ->
    sent_lines (Multi.stdout (Multi.loop ls st)) =
      map (fun p => "Sent metric: " ++ p) (Multi.written (Multi.loop ls st)).
Proof.
  induction ls as [|l ls IH]; intros st H; [exact H|].
  rewrite Multi_loop_cons. apply IH.
  destruct (header_line l) eqn:Hl.
  - rewrite (Multi_step_header _ _ Hl).
    apply (Multi_console_process_metric _ H).
  - rewrite (Multi_step_body _ _ Hl). exact H.
Qed.

Lemma Slot_console_process_metric (st : Slot.state) :
  sent_lines (Slot.stdout st) =
    map (fun p => "Sent metric: " ++ p) (Slot.written st) ->
  sent_lines (Slot.stdout (Slot.process_metric st)) =
    map (fun p => "Sent metric: " ++ p) (Slot.written (Slot.process_metric st)).
Proof.
  intros H. unfold Slot.written in *.
  destruct (Slot_process_metric_cases st) as [[V E]|[[N [D E]]|[N E]]];
    rewrite E; cbn [Slot.stdout Slot.udp]; [| |exact H].
  - rewrite !sent_lines_app, !map_app, H.
    replace (sent_lines [Slot.processing_msg (Slot.current st)]) with (@nil string)
      by reflexivity.
    rewrite app_nil_r. reflexivity.
  - rewrite sent_lines_app, H.
    replace (sent_lines [Slot.skipping_msg (Slot.current st)]) with (@nil string)
      by reflexivity.
    apply app_nil_r.
Qed.

Lemma Slot_console_loop (ls : list string) :
  forall st,
    sent_lines (Slot.stdout st) =
      map (fun p => "Sent metric: " ++ p) (Slot.written st) ->
    sent_lines (Slot.stdout (Slot.loop ls st)) =
      map (fun p => "Sent metric: " ++ p) (Slot.written (Slot.loop ls st)).
Proof.
  induction ls as [|l ls IH]; intros st H; [exact H|].
  rewrite Slot_loop_cons. apply IH.
  destruct (header_line l) eqn:Hl.
  - rewrite (Slot_step_header _ _ Hl).
    apply (Slot_console_process_metric _ H).
  - rewrite (Slot_step_body _ _ Hl). exact H.
Qed.

(** X2: the console reports what was sent and nothing more.  In every run,
    the input file there or not, the console lines that start with
    Sent metric: are, in order, that head followed by the text of each
    metric line written to the UDP socket, one echo -n each.  Both
    scripts. *)
Theorem X2_console_reports_each_metric (f : disks_ini) :
  sent_lines (Multi.stdout (snd (Multi.main f))) =
    map (fun p => "Sent metric: " ++ p) (Multi.written (snd (Multi.main f))) /\
  sent_lines (Slot.stdout (snd (Slot.main f))) =
    map (fun p => "Sent metric: " ++ p) (Slot.written (snd (Slot.main f))).
Proof.
  split.
  - destruct f as [|content]; [reflexivity|].
    unfold Multi.main. cbv zeta. cbn [snd].
    set (s := Multi.process_metric (Multi.loop _ _)).
    assert (H : sent_lines (Multi.stdout s) =
                map (fun p => "Sent metric: " ++ p) (Multi.written s)).
    { apply Multi_console_process_metric, Multi_console_loop. reflexivity. }
    unfold Multi.log, Multi.written in *.
    cbn [Multi.disk_count Multi.udp Multi.stdout Multi.LOG_ENABLED
         String.eqb Ascii.eqb Bool.eqb].
    rewrite !sent_lines_app, H. cbn. now rewrite !app_nil_r.
  - destruct f as [|content]; [reflexivity|].
    unfold Slot.main. cbv zeta. cbn [snd].
    set (s := Slot.process_metric (Slot.loop _ _)).
    assert (H : sent_lines (Slot.stdout s) =
                map (fun p => "Sent metric: " ++ p) (Slot.written s)).
    { apply Slot_console_process_metric, Slot_console_loop. reflexivity. }
    unfold Slot.log, Slot.written in *.
    cbn [Slot.disk_count Slot.udp Slot.stdout Slot.LOG_ENABLED
         String.eqb Ascii.eqb Bool.eqb].
    rewrite !sent_lines_app, H. cbn. now rewrite !app_nil_r.
Qed.

(** *** Text after the last newline *)

Lemma read_lines_no_newline (s : string) :
  has_no_newline s = true -> read_lines s = [].
Proof.
  unfold has_no_newline.
  induction s as [|c s IH]; cbn [all_chars read_lines]; intros H; [reflexivity|].
  apply andb_true_iff in H as [Hc Hs]. apply negb_true_iff in Hc.
  rewrite Hc, (IH Hs). now destruct (c =? NUL)%char.
Qed.

Lemma read_lines_tail (content tail : string) :
  has_no_newline tail = true ->
  read_lines (content ++ String LF tail) = read_lines (content ++ String LF "").
Proof.
  intros H. induction content as [|c content IH]; cbn [append read_lines].
  - change (LF =? LF)%char with true. cbv iota.
    now rewrite (read_lines_no_newline _ H).
  - now rewrite IH.
Qed.

(** X3: what stands after the last newline of the file is not processed.
    read fails on text that no newline ends, so the loop body never runs on
    it: a file whose last line lacks its newline gives the run of the same
    file without that line.  Both scripts. *)
Theorem X3_text_after_last_newline_is_dropped (content tail : string) :
  has_no_newline tail = true ->
  read_lines (content ++ String LF tail) = read_lines (content ++ String LF "") /\
  Multi.main (Present (content ++ String LF tail)) =
    Multi.main (Present (content ++ String LF "")) /\
  Slot.main (Present (content ++ String LF tail)) =
    Slot.main (Present (content ++ String LF "")).
Proof.
  intros H. split; [apply (read_lines_tail _ _ H)|].
  unfold Multi.main, Slot.main. cbv zeta.
  rewrite (read_lines_tail _ _ H). split; reflexivity.
Qed.

Lemma X3_text_after_last_newline_is_dropped_witness :
  has_no_newline ("temp=" ++ quoted "38") = true /\
  Multi.written
    (snd (Multi.main
            (Present ((header_of "disk1" ++ String LF ("name=" ++ quoted "disk1")) ++
                      String LF ("temp=" ++ quoted "38"))))) = [] /\
  Multi.written
    (snd (Multi.main
            (Present (unlines [header_of "disk1"; "name=" ++ quoted "disk1";
                               "temp=" ++ quoted "38"])))) =
    [ "unraid.disk.temperature:38|g|#disk_name:disk1,disk_id:,disk_type:,device:,transport:" ].
Proof.
  destruct (X3_text_after_last_newline_is_dropped
              (header_of "disk1" ++ String LF ("name=" ++ quoted "disk1"))
              ("temp=" ++ quoted "38") eq_refl) as (_ & M & _).
  refine (conj eq_refl (conj _ eq_refl)).
  rewrite M. reflexivity.
Defined.

(** *** Whitespace around a line *)

Lemma ltrim_blank (ws : string) : is_blank ws = true -> ltrim ws = "".
Proof.
  unfold is_blank. induction ws as [|c ws IH]; cbn [all_chars ltrim]; intros H.
  - reflexivity.
  - apply andb_true_iff in H as [Hc Hw]. rewrite Hc. exact (IH Hw).
Qed.

Lemma rtrim_blank (ws : string) : is_blank ws = true -> rtrim ws = "".
Proof.
  unfold is_blank. induction ws as [|c ws IH]; cbn [all_chars rtrim]; intros H.
  - reflexivity.
  - apply andb_true_iff in H as [Hc Hw]. now rewrite (IH Hw), Hc.
Qed.

Lemma ltrim_blank_app (ws s : string) :
  is_blank ws = true -> ltrim (ws ++ s) = ltrim s.
Proof.
  unfold is_blank. induction ws as [|c ws IH]; cbn [all_chars append ltrim]; intros H.
  - reflexivity.
  - apply andb_true_iff in H as [Hc Hw]. rewrite Hc. exact (IH Hw).
Qed.

Lemma rtrim_app_blank (s ws : string) :
  is_blank ws = true -> rtrim (s ++ ws) = rtrim s.
Proof.
  intros H. induction s as [|c s IH]; cbn [append rtrim].
  - apply (rtrim_blank _ H).
  - now rewrite IH.
Qed.

Lemma sed_trim_app_blank (s ws : string) :
  is_blank ws = true -> sed_trim (s ++ ws) = sed_trim s.
Proof.
  intros H. unfold sed_trim.
  induction s as [|c s IH]; cbn [append ltrim].
  - now rewrite (ltrim_blank _ H).
  - destruct (is_space c); [exact IH|].
    change (String c (s ++ ws)) with (String c s ++ ws).
    apply (rtrim_app_blank _ _ H).
Qed.

Lemma sed_trim_blank_around (ws1 l ws2 : string) :
  is_blank ws1 = true -> is_blank ws2 = true ->
  sed_trim (ws1 ++ l ++ ws2) = sed_trim l.
Proof.
  intros H1 H2. rewrite <- (sed_trim_app_blank l ws2 H2).
  unfold sed_trim. now rewrite (ltrim_blank_app _ _ H1).
Qed.

Lemma rtrim_no_space (s : string) :
  all_chars (fun c => negb (is_space c)) s = true -> rtrim s = s.
Proof.
  induction s as [|c s IH]; cbn [all_chars rtrim]; intros H; [reflexivity|].
  apply andb_true_iff in H as [Hc Hs]. apply negb_true_iff in Hc.
  rewrite (IH Hs), Hc. now destruct s.
Qed.

Lemma echo_flag_no_space (c : ascii) : echo_flag c = true -> is_space c = false.
Proof.
  unfold echo_flag. intros H.
  apply orb_true_iff in H as [H|H]; [apply orb_true_iff in H as [H|H]|];
    apply Ascii.eqb_eq in H; subst c; reflexivity.
Qed.

Lemma echo_flags_no_space (r : string) :
  all_chars echo_flag r = true ->
  all_chars (fun c => negb (is_space c)) r = true.
Proof.
  induction r as [|c r IH]; cbn [all_chars]; intros H; [reflexivity|].
  apply andb_true_iff in H as [Hc Hr].
  now rewrite (echo_flag_no_space _ Hc), (IH Hr).
Qed.

(** A word that echo takes for options: a hyphen, then flags, no blank. *)
Lemma echo_option_inv (x : string) :
  is_echo_option x = true ->
  exists c r, x = String "-" (String c r) /\
              all_chars (fun c => negb (is_space c)) (String c r) = true.
Proof.
  destruct x as [|a [|c r]]; try discriminate;
    try (destruct a as [[] [] [] [] [] [] [] []]; discriminate).
  destruct a as [[] [] [] [] [] [] [] []]; try discriminate.
  cbn [is_echo_option]. intros H. apply andb_true_iff in H as [Hc Hr].
  exists c, r. split; [reflexivity|].
  cbn [all_chars]. now rewrite (echo_flag_no_space _ Hc), (echo_flags_no_space _ Hr).
Qed.

Lemma echo_option_trim (x : string) :
  is_echo_option x = true -> sed_trim x = x.
Proof.
  intros H. destruct (echo_option_inv _ H) as (c & r & -> & Hs).
  unfold sed_trim. cbn [ltrim]. change (is_space "-") with false. cbv iota.
  apply rtrim_no_space. cbn [all_chars]. change (is_space "-") with false.
  exact Hs.
Qed.

(** The loop body on a line that is, trimmed, a word echo takes for
    options, and on an empty line: no header, no key, nothing changes. *)
Lemma Multi_step_echo_option (st : Multi.state) (l : string) :
  Multi.clean l = "" \/ is_echo_option (Multi.clean l) = true ->
  Multi.step st l = st.
Proof.
  unfold Multi.step. intros [E|H].
  - rewrite E. destruct st as [n [? ? ? ? ? ? ?] o u]. reflexivity.
  - destruct (echo_option_inv _ H) as (c & r & E & _).
    unfold Multi.key_of, Multi.value_of, echo. rewrite H. rewrite E.
    destruct st as [n [? ? ? ? ? ? ?] o u]. reflexivity.
Qed.

Lemma Slot_step_echo_option (st : Slot.state) (l : string) :
  Slot.clean l = "" \/ is_echo_option (Slot.clean l) = true ->
  Slot.step st l = st.
Proof.
  unfold Slot.step. intros [E|H].
  - rewrite E. destruct st as [n [? ? ? ?] o u]. reflexivity.
  - destruct (echo_option_inv _ H) as (c & r & E & _).
    rewrite E. destruct st as [n [? ? ? ?] o u]. reflexivity.
Qed.

(** The clean line of a line is its trimmed text, or nothing when echo took
    the line for options. *)
Lemma clean_cases (l : string) :
  (is_echo_option l = false /\ sed_trim (echo l) = sed_trim l) \/
  (is_echo_option l = true /\ sed_trim (echo l) = "" /\ sed_trim l = l).
Proof.
  unfold echo. destruct (is_echo_option l) eqn:E.
  - right. split; [reflexivity|]. split; [reflexivity|]. apply (echo_option_trim _ E).
  - left. split; reflexivity.
Qed.

(** X4: blanks, tabs and carriage returns before and after a line change
    nothing to what the loop body does with it.  Both scripts. *)
Theorem X4_surrounding_whitespace_is_ignored
    (st : Multi.state) (st' : Slot.state) (ws1 l ws2 : string) :
  is_blank ws1 = true -> is_blank ws2 = true ->
  Multi.step st (ws1 ++ l ++ ws2) = Multi.step st l /\
  Slot.step st' (ws1 ++ l ++ ws2) = Slot.step st' l.
Proof.
  intros H1 H2.
  pose proof (sed_trim_blank_around ws1 l ws2 H1 H2) as T.
  destruct (clean_cases l) as [[O C]|(O & C & I)];
    destruct (clean_cases (ws1 ++ l ++ ws2)) as [[O' C']|(O' & C' & I')].
  - assert (E : Multi.clean (ws1 ++ l ++ ws2) = Multi.clean l)
      by (unfold Multi.clean; now rewrite C, C', T).
    unfold Multi.step, Slot.step, Slot.clean. unfold Multi.clean in E.
    unfold Multi.clean. rewrite E. split; reflexivity.
  - (* the padded line is an option word: so is the trimmed line *)
    rewrite I' in T.
    split.
    + rewrite (Multi_step_echo_option st (ws1 ++ l ++ ws2)) by (left; exact C').
      rewrite (Multi_step_echo_option st l); [reflexivity|].
      right. unfold Multi.clean. rewrite C, <- T. exact O'.
    + rewrite (Slot_step_echo_option st' (ws1 ++ l ++ ws2)) by (left; exact C').
      rewrite (Slot_step_echo_option st' l); [reflexivity|].
      right. unfold Slot.clean. rewrite C, <- T. exact O'.
  - rewrite I in T.
    split.
    + rewrite (Multi_step_echo_option st l) by (left; exact C).
      rewrite (Multi_step_echo_option st (ws1 ++ l ++ ws2)); [reflexivity|].
      right. unfold Multi.clean. rewrite C', T. exact O.
    + rewrite (Slot_step_echo_option st' l) by (left; exact C).
      rewrite (Slot_step_echo_option st' (ws1 ++ l ++ ws2)); [reflexivity|].
      right. unfold Slot.clean. rewrite C', T. exact O.
  - split.
    + rewrite (Multi_step_echo_option st l) by (left; exact C).
      now rewrite (Multi_step_echo_option st (ws1 ++ l ++ ws2)) by (left; exact C').
    + rewrite (Slot_step_echo_option st' l) by (left; exact C).
      now rewrite (Slot_step_echo_option st' (ws1 ++ l ++ ws2)) by (left; exact C').
Qed.

Lemma X4_surrounding_whitespace_is_ignored_witness :
  is_blank (String "009" " ") = true /\ is_blank (String "013" "") = true /\
  Multi.current_temp
    (Multi.current
       (Multi.step Multi.initial
          (String "009" " " ++ ("temp=" ++ quoted "38") ++ String "013" ""))) = "38" /\
  Slot.current_temp
    (Slot.current
       (Slot.step Slot.initial
          (String "009" " " ++ ("temp=" ++ quoted "38") ++ String "013" ""))) = "38".
Proof.
  destruct (X4_surrounding_whitespace_is_ignored Multi.initial Slot.initial
              (String "009" " ") ("temp=" ++ quoted "38") (String "013" "")
              eq_refl eq_refl) as [M S].
  refine (conj eq_refl (conj eq_refl (conj _ _))).
  - rewrite M. reflexivity.
  - rewrite S. reflexivity.
Defined.

(** *** Lines that are neither header nor recognized key *)

Lemma Multi_with_current_same (st : Multi.state) :
  Multi.with_current (Multi.current st) st = st.
Proof. now destruct st. Qed.

Lemma Slot_with_current_same (st : Slot.state) :
  Slot.with_current (Slot.current st) st = st.
Proof. now destruct st. Qed.

Lemma Multi_assign_unrecognized (key value : string) (d : Multi.disk) :
  Multi_recognized key = false -> Multi.assign key value d = d.
Proof.
  unfold Multi_recognized. cbn [existsb]. intros H.
  repeat (apply orb_false_iff in H as [?E H]).
  destruct d. unfold Multi.assign.
  now rewrite E, E0, E1, E2, E3, E4, E5.
Qed.

Lemma Multi_step_ignored (st : Multi.state) (l : string) :
  Multi_ignored l = true -> Multi.step st l = st.
Proof.
  unfold Multi_ignored. intros H. apply andb_true_iff in H as [Hh Hk].
  apply negb_true_iff in Hh. apply negb_true_iff in Hk.
  rewrite (Multi_step_body _ _ Hh), (Multi_assign_unrecognized _ _ _ Hk).
  apply Multi_with_current_same.
Qed.

Lemma Slot_assign_no_key (cl : string) (d : Slot.disk) :
  Slot_key cl = "" -> Slot.assign cl d = d.
Proof.
  unfold Slot_key, Slot.assign. destruct d.
  destruct (prefix "id=" cl); [discriminate|].
  destruct (prefix "temp=" cl); [discriminate|].
  destruct (prefix "type=" cl); [discriminate|reflexivity].
Qed.

Lemma Slot_step_ignored (st : Slot.state) (l : string) :
  Slot_ignored l = true -> Slot.step st l = st.
Proof.
  unfold Slot_ignored. intros H. apply andb_true_iff in H as [Hh Hk].
  apply negb_true_iff in Hh. apply String.eqb_eq in Hk.
  rewrite (Slot_step_body _ _ Hh), (Slot_assign_no_key _ _ Hk).
  apply Slot_with_current_same.
Qed.

Lemma blank_line_clean (ws : string) :
  is_blank ws = true -> sed_trim (echo ws) = "".
Proof.
  intros H. destruct (clean_cases ws) as [[_ C]|(_ & C & _)]; [|exact C].
  rewrite C. unfold sed_trim. now rewrite (ltrim_blank _ H).
Qed.

(** X5: lines that are no header and carry no recognized key (another key,
    a comment, a blank line) can be taken out of the input, wherever they
    stand, without any change to the run; a line of blanks is such a line.
    Both scripts. *)
Theorem X5_unrecognized_lines_are_skipped
    (ls : list string) (st : Multi.state) (st' : Slot.state) (ws : string) :
  Multi.loop ls st =
    Multi.loop (filter (fun l => negb (Multi_ignored l)) ls) st /\
  Slot.loop ls st' =
    Slot.loop (filter (fun l => negb (Slot_ignored l)) ls) st' /\
  (is_blank ws = true -> Multi_ignored ws = true /\ Slot_ignored ws = true).
Proof.
  split; [|split].
  - revert st. induction ls as [|l ls IH]; intros st; [reflexivity|].
    cbn [filter]. destruct (Multi_ignored l) eqn:E; cbn [negb].
    + rewrite Multi_loop_cons, (Multi_step_ignored _ _ E). apply IH.
    + rewrite !Multi_loop_cons. apply IH.
  - revert st'. induction ls as [|l ls IH]; intros st'; [reflexivity|].
    cbn [filter]. destruct (Slot_ignored l) eqn:E; cbn [negb].
    + rewrite Slot_loop_cons, (Slot_step_ignored _ _ E). apply IH.
    + rewrite !Slot_loop_cons. apply IH.
  - intros H. pose proof (blank_line_clean _ H) as C.
    unfold Multi_ignored, Slot_ignored, header_line, Multi.clean, Slot.clean.
    rewrite C. split; reflexivity.
Qed.

Lemma X5_unrecognized_lines_are_skipped_witness :
  is_blank "   " = true /\
  Multi_ignored "   " = true /\ Slot_ignored "   " = true /\
  Multi_ignored ("size=" ++ quoted "4000787030016") = true /\
  Multi.loop (header_of "disk1" ::
              "   " :: ("size=" ++ quoted "4000787030016") :: body disk1_block)
             Multi.initial =
    Multi.loop (header_of "disk1" :: body disk1_block) Multi.initial.
Proof.
  destruct (X5_unrecognized_lines_are_skipped
              (header_of "disk1" ::
               "   " :: ("size=" ++ quoted "4000787030016") :: body disk1_block)
              Multi.initial Slot.initial "   ") as (M & _ & B).
  refine (conj eq_refl (conj (proj1 (B eq_refl)) (conj (proj2 (B eq_refl))
           (conj eq_refl _)))).
  rewrite M. reflexivity.
Defined.

(** *** Several key lines in one section *)

Ltac decide_keys :=
  repeat match goal with
         | |- context [String.eqb ?k ?lit] =>
             destruct (String.eqb_spec k lit); subst; cbn
         end.

Lemma Multi_assign_same (k v1 v2 : string) (d : Multi.disk) :
  Multi.assign k v2 (Multi.assign k v1 d) = Multi.assign k v2 d.
Proof.
  destruct d. unfold Multi.assign. decide_keys; reflexivity.
Qed.

Lemma Multi_assign_comm (k1 k2 v1 v2 : string) (d : Multi.disk) :
  k1 <> k2 ->
  Multi.assign k1 v1 (Multi.assign k2 v2 d) =
  Multi.assign k2 v2 (Multi.assign k1 v1 d).
Proof.
  intros N. destruct d. unfold Multi.assign.
  decide_keys; try reflexivity; try congruence.
Qed.

Lemma Slot_assign_same (c1 c2 : string) (d : Slot.disk) :
  Slot_key c1 = Slot_key c2 ->
  Slot.assign c2 (Slot.assign c1 d) = Slot.assign c2 d.
Proof.
  destruct d. unfold Slot_key, Slot.assign.
  destruct (prefix "id=" c1), (prefix "temp=" c1), (prefix "type=" c1),
           (prefix "id=" c2), (prefix "temp=" c2), (prefix "type=" c2);
    intros H; try discriminate H; reflexivity.
Qed.

Lemma Slot_assign_comm (c1 c2 : string) (d : Slot.disk) :
  Slot_key c1 <> Slot_key c2 ->
  Slot.assign c1 (Slot.assign c2 d) = Slot.assign c2 (Slot.assign c1 d).
Proof.
  destruct d. unfold Slot_key, Slot.assign.
  destruct (prefix "id=" c1), (prefix "temp=" c1), (prefix "type=" c1),
           (prefix "id=" c2), (prefix "temp=" c2), (prefix "type=" c2);
    intros H; try reflexivity; now contradiction H.
Qed.

(** X6: inside a section the last line of a key is the one that counts, and
    lines of different keys can stand in either order.  For two lines that
    are no header: with the same key, the run after both is the run after
    the second alone; with different keys, the run is the same in both
    orders.  Both scripts, the key of the slot script being the branch of
    its elif chain. *)
Theorem X6_last_value_wins_and_keys_commute
    (st : Multi.state) (st' : Slot.state) (l1 l2 : string) :
  header_line l1 = false -> header_line l2 = false ->
  (Multi.key_of (Multi.clean l1) = Multi.key_of (Multi.clean l2) ->
   Multi.step (Multi.step st l1) l2 = Multi.step st l2) /\
  (Multi.key_of (Multi.clean l1) <> Multi.key_of (Multi.clean l2) ->
   Multi.step (Multi.step st l1) l2 = Multi.step (Multi.step st l2) l1) /\
  (Slot_key (Slot.clean l1) = Slot_key (Slot.clean l2) ->
   Slot.step (Slot.step st' l1) l2 = Slot.step st' l2) /\
  (Slot_key (Slot.clean l1) <> Slot_key (Slot.clean l2) ->
   Slot.step (Slot.step st' l1) l2 = Slot.step (Slot.step st' l2) l1).
Proof.
  intros H1 H2.
  rewrite !(Multi_step_body _ _ H1), !(Multi_step_body _ _ H2),
          !(Slot_step_body _ _ H1), !(Slot_step_body _ _ H2).
  cbn [Multi.with_current Multi.current Multi.disk_count Multi.stdout Multi.udp
       Slot.with_current Slot.current Slot.disk_count Slot.stdout Slot.udp].
  split; [|split; [|split]].
  - intros E. rewrite E, Multi_assign_same. reflexivity.
  - intros N. now rewrite (Multi_assign_comm _ _ _ _ _ N).
  - intros E. now rewrite (Slot_assign_same _ _ _ E).
  - intros N. now rewrite (Slot_assign_comm _ _ _ N).
Qed.

Lemma X6_last_value_wins_and_keys_commute_witness :
  header_line ("temp=" ++ quoted "35") = false /\
  header_line ("temp=" ++ quoted "38") = false /\
  Multi.current_temp
    (Multi.current
       (Multi.step (Multi.step Multi.initial ("temp=" ++ quoted "35"))
                   ("temp=" ++ quoted "38"))) = "38" /\
  Slot.current_temp
    (Slot.current
       (Slot.step (Slot.step Slot.initial ("temp=" ++ quoted "35"))
                  ("temp=" ++ quoted "38"))) = "38".
Proof.
  destruct (X6_last_value_wins_and_keys_commute Multi.initial Slot.initial
              ("temp=" ++ quoted "35") ("temp=" ++ quoted "38") eq_refl eq_refl)
    as (M & _ & S & _).
  refine (conj eq_refl (conj eq_refl (conj _ _))).
  - rewrite (M eq_refl). reflexivity.
  - rewrite (S eq_refl). reflexivity.
Defined.

(** *** The split of a line into key and value *)

Lemma cut_f1_no_delim (d : ascii) (s : string) :
  all_chars (fun c => negb (c =? d)%char) (cut_f1 d s) = true.
Proof.
  induction s as [|c s IH]; cbn [cut_f1]; [reflexivity|].
  destruct (c =? d)%char eqn:E; [reflexivity|].
  cbn [all_chars]. now rewrite E, IH.
Qed.

Lemma cut_without_delim (d : ascii) (s : string) :
  all_chars (fun c => negb (c =? d)%char) s = true ->
  cut_f1 d s = s /\ after_delim d s = None.
Proof.
  induction s as [|c s IH]; cbn [all_chars cut_f1 after_delim]; intros H.
  - now split.
  - apply andb_true_iff in H as [Hc Hs]. apply negb_true_iff in Hc.
    rewrite Hc. destruct (IH Hs) as [-> ->]. now split.
Qed.

Lemma cut_with_delim (d : ascii) (s : string) :
  all_chars (fun c => negb (c =? d)%char) s = false ->
  exists r, after_delim d s = Some r /\ s = cut_f1 d s ++ String d r.
Proof.
  induction s as [|c s IH]; cbn [all_chars cut_f1 after_delim]; intros H.
  - discriminate.
  - destruct (c =? d)%char eqn:E.
    + apply Ascii.eqb_eq in E. subst c. exists s. now split.
    + cbn [negb andb] in H. destruct (IH H) as (r & -> & Hs).
      exists r. split; [reflexivity|]. cbn [append]. now rewrite <- Hs.
Qed.

(** X7: how the multi-field script splits a clean line, which it hands to
    cut through echo.  The key holds no equals sign.  A line that echo
    takes for options (a hyphen followed by one or more of the letters n,
    e, E and nothing else) is not printed: its key and its value are
    empty.  Of the lines that echo prints, one with an equals sign is its
    key, the sign and the rest, later signs included, and the value is that
    rest without its double quotes; one with no equals sign is taken whole
    for the key and, without its double quotes, for the value too: cut
    prints a line that has no delimiter as it is. *)
Theorem X7_key_value_split (cl : string) :
  has_no_equals (Multi.key_of cl) = true /\
  (is_echo_option cl = true ->
   Multi.key_of cl = "" /\ Multi.value_of cl = "") /\
  (is_echo_option cl = false -> has_no_equals cl = false ->
   exists raw, cl = Multi.key_of cl ++ "=" ++ raw /\
               Multi.value_of cl = tr_d is_dquote raw) /\
  (is_echo_option cl = false -> has_no_equals cl = true ->
   Multi.key_of cl = cl /\ Multi.value_of cl = tr_d is_dquote cl).
Proof.
  unfold Multi.key_of, Multi.value_of, has_no_equals.
  split; [apply cut_f1_no_delim|]. split; [|split].
  - intros O. unfold echo. rewrite O. now split.
  - intros O H. unfold echo. rewrite O.
    destruct (cut_with_delim _ _ H) as (r & A & E).
    exists r. split; [exact E|]. unfold cut_f2_on. now rewrite A.
  - intros O H. unfold echo. rewrite O.
    destruct (cut_without_delim _ _ H) as [K A].
    split; [exact K|]. unfold cut_f2_on. now rewrite A.
Qed.

Lemma X7_key_value_split_witness :
  (is_echo_option "temp" = false /\ has_no_equals "temp" = true /\
   Multi.key_of "temp" = "temp" /\ Multi.value_of "temp" = "temp" /\
   Multi.current_temp (Multi.current (Multi.step Multi.initial "temp")) = "temp") /\
  (is_echo_option "-n" = true /\ has_no_equals "-n" = true /\
   Multi.key_of "-n" = "" /\ Multi.value_of "-n" = "") /\
  (is_echo_option "id=a=b" = false /\ has_no_equals "id=a=b" = false /\
   Multi.key_of "id=a=b" = "id" /\ Multi.value_of "id=a=b" = "a=b").
Proof.
  destruct (X7_key_value_split "temp") as (_ & _ & _ & B).
  destruct (X7_key_value_split "-n") as (_ & N & _).
  refine (conj _ (conj _ _)).
  - exact (conj eq_refl (conj eq_refl
             (conj (proj1 (B eq_refl eq_refl))
                   (conj (proj2 (B eq_refl eq_refl)) eq_refl)))).
  - exact (conj eq_refl (conj eq_refl (N eq_refl))).
  - exact (conj eq_refl (conj eq_refl (conj eq_refl eq_refl))).
Defined.

(** *** One file after another *)

Lemma Multi_loop_frame_current (ls : list string) :
  forall st,
    Multi.current (Multi.loop ls st) =
    Multi.current (Multi.loop ls (Multi.with_current (Multi.current st) Multi.initial)).
Proof.
  induction ls as [|l ls IH]; intros st; [reflexivity|].
  rewrite !Multi_loop_cons, (IH (Multi.step st l)).
  rewrite (IH (Multi.step (Multi.with_current (Multi.current st) Multi.initial) l)).
  destruct (header_line l) eqn:Hl.
  - now rewrite !(Multi_step_header _ _ Hl).
  - now rewrite !(Multi_step_body _ _ Hl).
Qed.

Lemma Slot_loop_frame_current (ls : list string) :
  forall st,
    Slot.current (Slot.loop ls st) =
    Slot.current (Slot.loop ls (Slot.with_current (Slot.current st) Slot.initial)).
Proof.
  induction ls as [|l ls IH]; intros st; [reflexivity|].
  rewrite !Slot_loop_cons, (IH (Slot.step st l)).
  rewrite (IH (Slot.step (Slot.with_current (Slot.current st) Slot.initial) l)).
  destruct (header_line l) eqn:Hl.
  - now rewrite !(Slot_step_header _ _ Hl).
  - now rewrite !(Slot_step_body _ _ Hl).
Qed.

(** The writes of a run over an existing file are those of the loop and
    the last flush, started from nothing. *)
Lemma Multi_main_udp (ls : list string) :
  forallb is_line ls = true ->
  Multi.udp (snd (Multi.main (Present (unlines ls)))) =
  Multi.udp (Multi.process_metric (Multi.loop ls Multi.initial)).
Proof.
  intros H. unfold Multi.main. cbv zeta. rewrite (read_lines_unlines _ H).
  cbn [snd]. unfold Multi.log at 1 2.
  cbn [Multi.udp Multi.LOG_ENABLED String.eqb Ascii.eqb Bool.eqb].
  rewrite !Multi_udp_process_metric.
  set (s0 := Multi.log _ (Multi.log _ Multi.initial)).
  rewrite (Multi_loop_frame ls s0), (Multi_loop_frame_current ls s0).
  reflexivity.
Qed.

Lemma Slot_main_udp (ls : list string) :
  forallb is_line ls = true ->
  Slot.udp (snd (Slot.main (Present (unlines ls)))) =
  Slot.udp (Slot.process_metric (Slot.loop ls Slot.initial)).
Proof.
  intros H. unfold Slot.main. cbv zeta. rewrite (read_lines_unlines _ H).
  cbn [snd]. unfold Slot.log at 1 2.
  cbn [Slot.udp Slot.LOG_ENABLED String.eqb Ascii.eqb Bool.eqb].
  rewrite !Slot_udp_process_metric.
  set (s0 := Slot.log _ (Slot.log _ Slot.initial)).
  rewrite (Slot_loop_frame ls s0), (Slot_loop_frame_current ls s0).
  reflexivity.
Qed.

Lemma Multi_run_split (a rest : list string) (hdr : string) :
  header_line hdr = true ->
  Multi.udp (Multi.process_metric (Multi.loop (a ++ hdr :: rest) Multi.initial)) =
  (Multi.udp (Multi.process_metric (Multi.loop a Multi.initial)) ++
   Multi.udp (Multi.process_metric (Multi.loop (hdr :: rest) Multi.initial)))%list.
Proof.
  intros Hh.
  rewrite Multi_loop_app, !Multi_loop_cons, !(Multi_step_header _ _ Hh).
  rewrite !Multi_udp_process_metric.
  set (sa := Multi.loop a Multi.initial).
  rewrite (Multi_loop_frame rest (Multi.with_current _ (Multi.process_metric sa))).
  rewrite (Multi_loop_frame_current rest (Multi.with_current _ (Multi.process_metric sa))).
  cbn [Multi.with_current Multi.udp Multi.current].
  rewrite Multi_udp_process_metric, <- !app_assoc. reflexivity.
Qed.

Lemma Slot_run_split (a rest : list string) (hdr : string) :
  header_line hdr = true ->
  Slot.udp (Slot.process_metric (Slot.loop (a ++ hdr :: rest) Slot.initial)) =
  (Slot.udp (Slot.process_metric (Slot.loop a Slot.initial)) ++
   Slot.udp (Slot.process_metric (Slot.loop (hdr :: rest) Slot.initial)))%list.
Proof.
  intros Hh.
  rewrite Slot_loop_app, !Slot_loop_cons, !(Slot_step_header _ _ Hh).
  rewrite !Slot_udp_process_metric.
  set (sa := Slot.loop a Slot.initial).
  rewrite (Slot_loop_frame rest (Slot.with_current _ (Slot.process_metric sa))).
  rewrite (Slot_loop_frame_current rest (Slot.with_current _ (Slot.process_metric sa))).
  cbn [Slot.with_current Slot.udp Slot.current].
  rewrite Slot_udp_process_metric, <- !app_assoc. reflexivity.
Qed.

(** X8: a file cut before one of its header lines.  The metric lines of the
    run over the whole file are those of the run over the first part
    followed by those of the run over the second part: no section sees
    what the sections before it recorded or sent.  Both scripts. *)
Theorem X8_runs_compose_at_a_header (a rest : list string) (hdr : string) :
  forallb is_line (a ++ hdr :: rest) = true ->
  header_line hdr = true ->
  Multi.udp (snd (Multi.main (Present (unlines (a ++ hdr :: rest))))) =
    (Multi.udp (snd (Multi.main (Present (unlines a)))) ++
     Multi.udp (snd (Multi.main (Present (unlines (hdr :: rest))))))%list /\
  Slot.udp (snd (Slot.main (Present (unlines (a ++ hdr :: rest))))) =
    (Slot.udp (snd (Slot.main (Present (unlines a)))) ++
     Slot.udp (snd (Slot.main (Present (unlines (hdr :: rest))))))%list.
Proof.
  intros Hl Hh.
  pose proof Hl as Hl'. rewrite forallb_app in Hl'.
  apply andb_true_iff in Hl' as [Ha Hb].
  rewrite !(Multi_main_udp _ Hl), !(Multi_main_udp _ Ha), !(Multi_main_udp _ Hb).
  rewrite !(Slot_main_udp _ Hl), !(Slot_main_udp _ Ha), !(Slot_main_udp _ Hb).
  split; [apply (Multi_run_split _ _ _ Hh) | apply (Slot_run_split _ _ _ Hh)].
Qed.

Lemma X8_runs_compose_at_a_header_witness :
  forallb is_line ((header disk1_block :: body disk1_block) ++
                   header cache_block :: body cache_block) = true /\
  header_line (header cache_block) = true /\
  Multi.written
    (snd (Multi.main (Present (unlines ((header disk1_block :: body disk1_block) ++
                                        header cache_block :: body cache_block))))) =
    (Multi.written (snd (Multi.main (file_of [disk1_block]))) ++
     Multi.written (snd (Multi.main (file_of [cache_block]))))%list.
Proof.
  destruct (X8_runs_compose_at_a_header (header disk1_block :: body disk1_block)
              (body cache_block) (header cache_block) eq_refl eq_refl) as [M _].
  refine (conj eq_refl (conj eq_refl _)).
  unfold Multi.written. rewrite M. reflexivity.
Defined.

(** *** The label of a header *)

Lemma header_of_eq (label : string) :
  header_of label = hdr_open ++ label ++ hdr_close.
Proof.
  unfold header_of, quoted, hdr_open, hdr_close. cbn [append].
  now rewrite string_app_assoc.
Qed.

Lemma header_of_clean (label : string) :
  sed_trim (echo (header_of label)) = header_of label.
Proof.
  rewrite header_of_eq.
  change (echo (hdr_open ++ label ++ hdr_close)) with (hdr_open ++ label ++ hdr_close).
  unfold sed_trim.
  change (ltrim (hdr_open ++ label ++ hdr_close)) with (hdr_open ++ label ++ hdr_close).
  replace (hdr_open ++ label ++ hdr_close)
    with ((hdr_open ++ label ++ String dquote "") ++ String "]" "").
  - apply rtrim_keeps. reflexivity.
  - unfold hdr_open, hdr_close. cbn [append]. now rewrite string_app_assoc.
Qed.

(** X9: the header line written for a label.  It is a header exactly when
    the label is not empty.  The slot script then starts a record whose
    slot is the label without its brackets and double quotes, the label
    itself when it has none, and whose other fields are empty; the
    multi-field script starts an empty record and keeps nothing of the
    label. *)
Theorem X9_header_label (st : Multi.state) (st' : Slot.state) (label : string) :
  header_line (header_of label) = nonempty label /\
  (nonempty label = true ->
   Slot.current (Slot.step st' (header_of label)) =
     Slot.Disk (tr_d is_bracket_or_dquote label) "" "" "" /\
   (all_chars (fun c => negb (is_bracket_or_dquote c)) label = true ->
    Slot.current_slot (Slot.current (Slot.step st' (header_of label))) = label) /\
   Multi.current (Multi.step st (header_of label)) = Multi.empty_disk).
Proof.
  assert (Hh : header_line (header_of label) = nonempty label).
  { unfold header_line. rewrite header_of_clean, header_of_eq.
    destruct label as [|c label]; [reflexivity|].
    apply is_header_iff. exists (String c label). split; [discriminate|reflexivity]. }
  split; [exact Hh|]. intros N. rewrite N in Hh.
  assert (S : Slot.current (Slot.step st' (header_of label)) =
              Slot.Disk (tr_d is_bracket_or_dquote label) "" "" "").
  { rewrite (Slot_step_header _ _ Hh). cbn [Slot.with_current Slot.current].
    unfold Slot.slot_of, Slot.clean. rewrite header_of_clean.
    f_equal. rewrite header_of_eq.
    change (echo (hdr_open ++ label ++ hdr_close)) with (hdr_open ++ label ++ hdr_close).
    rewrite !tr_d_app.
    change (tr_d is_bracket_or_dquote hdr_open) with "".
    change (tr_d is_bracket_or_dquote hdr_close) with "".
    cbn [append]. apply string_app_nil_r. }
  split; [exact S|]. split.
  - intros K. rewrite S. cbn [Slot.current_slot]. apply (tr_d_keeps _ _ K).
  - now rewrite (Multi_step_header _ _ Hh).
Qed.

Lemma X9_header_label_witness :
  nonempty "disk1" = true /\
  header_line (header_of "disk1") = true /\
  header_line (header_of "") = false /\
  Slot.current (Slot.step Slot.initial (header_of "disk1")) =
    Slot.Disk "disk1" "" "" "".
Proof.
  destruct (X9_header_label Multi.initial Slot.initial "disk1") as (H & R).
  destruct (R eq_refl) as (S & _).
  exact (conj eq_refl (conj H (conj eq_refl S))).
Defined.

(** *** Files that never set a required field *)

Lemma Multi_process_metric_no_name (st : Multi.state) :
  Multi.current_name (Multi.current st) = "" -> Multi.process_metric st = st.
Proof. intros H. unfold Multi.process_metric. now rewrite H. Qed.

Lemma Multi_process_metric_no_temp (st : Multi.state) :
  Multi.current_temp (Multi.current st) = "" -> Multi.process_metric st = st.
Proof.
  intros H. apply Multi_process_metric_invalid. now rewrite H.
Qed.

Lemma Slot_process_metric_no_temp (st : Slot.state) :
  Slot.current_temp (Slot.current st) = "" -> Slot.process_metric st = st.
Proof.
  intros H. apply Slot_process_metric_invalid. now rewrite H.
Qed.

Lemma Multi_assign_keeps_temp (key value : string) (d : Multi.disk) :
  (key =? "temp") = false ->
  Multi.current_temp (Multi.assign key value d) = Multi.current_temp d.
Proof.
  intros H. destruct d. unfold Multi.assign. rewrite H.
  decide_keys; reflexivity.
Qed.

Lemma Multi_assign_keeps_name (key value : string) (d : Multi.disk) :
  (key =? "name") = false ->
  Multi.current_name (Multi.assign key value d) = Multi.current_name d.
Proof.
  intros H. destruct d. unfold Multi.assign. rewrite H.
  decide_keys; reflexivity.
Qed.

Lemma Slot_assign_keeps_temp (cl : string) (d : Slot.disk) :
  (Slot_key cl =? "temp") = false ->
  Slot.current_temp (Slot.assign cl d) = Slot.current_temp d.
Proof.
  destruct d. unfold Slot_key, Slot.assign.
  destruct (prefix "id=" cl); [reflexivity|].
  destruct (prefix "temp=" cl); [discriminate|].
  destruct (prefix "type=" cl); reflexivity.
Qed.

(** A field that is empty, that no line sets and without which nothing is
    sent stays empty, and nothing is sent. *)
Lemma Multi_loop_field_never_set (get : Multi.disk -> string) (k : string) :
  get Multi.empty_disk = "" ->
  (forall key value d, (key =? k) = false -> get (Multi.assign key value d) = get d) ->
  (forall st, get (Multi.current st) = "" -> Multi.process_metric st = st) ->
  forall ls st,
    forallb (fun l => negb (Multi_sets k l)) ls = true ->
    get (Multi.current st) = "" ->
    Multi.udp (Multi.process_metric (Multi.loop ls st)) = Multi.udp st.
Proof.
  intros He Ha Hp. induction ls as [|l ls IH]; intros st H G.
  - change (Multi.loop [] st) with st. now rewrite (Hp _ G).
  - cbn [forallb] in H. apply andb_true_iff in H as [Hl Hls].
    rewrite Multi_loop_cons. unfold Multi_sets in Hl.
    destruct (header_line l) eqn:Hh.
    + rewrite (Multi_step_header _ _ Hh), (Hp _ G).
      now rewrite (IH (Multi.with_current Multi.empty_disk st) Hls He).
    + cbn [negb andb] in Hl. apply negb_true_iff in Hl.
      rewrite (Multi_step_body _ _ Hh).
      rewrite (IH _ Hls); [reflexivity|].
      cbn [Multi.with_current Multi.current]. now rewrite (Ha _ _ _ Hl).
Qed.

Lemma Slot_loop_temp_never_set (ls : list string) :
  forall st,
    forallb (fun l => negb (Slot_sets "temp" l)) ls = true ->
    Slot.current_temp (Slot.current st) = "" ->
    Slot.udp (Slot.process_metric (Slot.loop ls st)) = Slot.udp st.
Proof.
  induction ls as [|l ls IH]; intros st H G.
  - change (Slot.loop [] st) with st. now rewrite (Slot_process_metric_no_temp _ G).
  - cbn [forallb] in H. apply andb_true_iff in H as [Hl Hls].
    rewrite Slot_loop_cons. unfold Slot_sets in Hl.
    destruct (header_line l) eqn:Hh.
    + rewrite (Slot_step_header _ _ Hh), (Slot_process_metric_no_temp _ G).
      now rewrite (IH (Slot.with_current
                         (Slot.Disk (Slot.slot_of (Slot.clean l)) "" "" "") st)
                     Hls eq_refl).
    + cbn [negb andb] in Hl. apply negb_true_iff in Hl.
      rewrite (Slot_step_body _ _ Hh).
      rewrite (IH _ Hls); [reflexivity|].
      cbn [Slot.with_current Slot.current].
      now rewrite (Slot_assign_keeps_temp _ _ Hl).
Qed.

(** X10: no metric without the lines that give it its fields.  A file none
    of whose lines assigns temp sends nothing, however many sections and
    other keys it has; for the multi-field script the same holds of a file
    none of whose lines assigns name. *)
Theorem X10_nothing_sent_without_temp_or_name (content : string) :
  (forallb (fun l => negb (Multi_sets "temp" l)) (read_lines content) = true ->
   Multi.udp (snd (Multi.main (Present content))) = []) /\
  (forallb (fun l => negb (Multi_sets "name" l)) (read_lines content) = true ->
   Multi.udp (snd (Multi.main (Present content))) = []) /\
  (forallb (fun l => negb (Slot_sets "temp" l)) (read_lines content) = true ->
   Slot.udp (snd (Slot.main (Present content))) = []).
Proof.
  split; [|split]; intros H.
  - unfold Multi.main. cbv zeta. cbn [snd]. unfold Multi.log at 1 2.
    cbn [Multi.udp Multi.LOG_ENABLED String.eqb Ascii.eqb Bool.eqb].
    set (s0 := Multi.log _ (Multi.log _ Multi.initial)).
    exact (Multi_loop_field_never_set Multi.current_temp "temp" eq_refl
             Multi_assign_keeps_temp Multi_process_metric_no_temp
             (read_lines content) s0 H eq_refl).
  - unfold Multi.main. cbv zeta. cbn [snd]. unfold Multi.log at 1 2.
    cbn [Multi.udp Multi.LOG_ENABLED String.eqb Ascii.eqb Bool.eqb].
    set (s0 := Multi.log _ (Multi.log _ Multi.initial)).
    exact (Multi_loop_field_never_set Multi.current_name "name" eq_refl
             Multi_assign_keeps_name Multi_process_metric_no_name
             (read_lines content) s0 H eq_refl).
  - unfold Slot.main. cbv zeta. cbn [snd]. unfold Slot.log at 1 2.
    cbn [Slot.udp Slot.LOG_ENABLED String.eqb Ascii.eqb Bool.eqb].
    set (s0 := Slot.log _ (Slot.log _ Slot.initial)).
    exact (Slot_loop_temp_never_set (read_lines content) s0 H eq_refl).
Qed.

Lemma X10_nothing_sent_without_temp_or_name_witness :
  forallb (fun l => negb (Multi_sets "temp" l))
          (read_lines (unlines (render [no_temp_block; no_temp_block]))) = true /\
  Multi.udp (snd (Multi.main (file_of [no_temp_block; no_temp_block]))) = [] /\
  Slot.udp (snd (Slot.main (file_of [no_temp_block; no_temp_block]))) = [].
Proof.
  destruct (X10_nothing_sent_without_temp_or_name
              (unlines (render [no_temp_block; no_temp_block]))) as (M & _ & S).
  exact (conj eq_refl (conj (M eq_refl) (S eq_refl))).
Defined.

(** *** At most one metric for each section *)

Lemma Multi_emitted_length (d : Multi.disk) : length (Multi_emitted d) <= 1.
Proof. unfold Multi_emitted. destruct (Multi_valid d); simpl; lia. Qed.

Lemma Slot_emitted_length (d : Slot.disk) : length (Slot_emitted d) <= 1.
Proof. unfold Slot_emitted. destruct (Slot_valid d); simpl; lia. Qed.

Lemma Multi_loop_at_most_one (ls : list string) :
  forall st,
    length (Multi.udp (Multi.loop ls st)) <=
    length (Multi.udp st) + count_headers ls.
Proof.
  unfold count_headers.
  induction ls as [|l ls IH]; intros st; [simpl; lia|].
  rewrite Multi_loop_cons. cbn [filter].
  destruct (header_line l) eqn:Hl.
  - rewrite (Multi_step_header _ _ Hl).
    specialize (IH (Multi.with_current Multi.empty_disk (Multi.process_metric st))).
    cbn [Multi.with_current Multi.udp] in IH.
    rewrite (Multi_udp_process_metric st), length_app in IH.
    pose proof (Multi_emitted_length (Multi.current st)).
    cbn [length]. lia.
  - rewrite (Multi_step_body _ _ Hl).
    apply (IH (Multi.with_current _ st)).
Qed.

(** In the slot script a record can only be sent once a header has given
    it a slot: before the first header nothing is sent, and after it the
    writes are fewer than the headers until the last flush. *)
Lemma Slot_loop_at_most_one (ls : list string) :
  forall st,
    (Slot.current_slot (Slot.current st) = "" ->
     length (Slot.udp (Slot.process_metric (Slot.loop ls st))) <=
     length (Slot.udp st) + count_headers ls) /\
    length (Slot.udp (Slot.process_metric (Slot.loop ls st))) <=
    length (Slot.udp st) + count_headers ls + 1.
Proof.
  unfold count_headers.
  induction ls as [|l ls IH]; intros st.
  - cbn [Slot.loop fold_left filter length].
    rewrite Slot_udp_process_metric, length_app.
    pose proof (Slot_emitted_length (Slot.current st)). split; [|lia].
    intros E. unfold Slot_emitted, Slot_valid. rewrite E. simpl. lia.
  - rewrite Slot_loop_cons. cbn [filter].
    destruct (header_line l) eqn:Hl.
    + rewrite (Slot_step_header _ _ Hl).
      set (s1 := Slot.with_current _ (Slot.process_metric st)).
      destruct (IH s1) as [_ IH1].
      assert (U : Slot.udp s1 = Slot.udp (Slot.process_metric st)) by reflexivity.
      rewrite U, (Slot_udp_process_metric st), length_app in IH1.
      pose proof (Slot_emitted_length (Slot.current st)). cbn [length].
      split; [|lia].
      intros E. unfold Slot_emitted, Slot_valid in IH1. rewrite E in IH1.
      simpl in IH1. lia.
    + rewrite (Slot_step_body _ _ Hl).
      destruct (IH (Slot.with_current (Slot.assign (Slot.clean l) (Slot.current st)) st))
        as [IH0 IH1].
      split; [|exact IH1].
      intros E. apply IH0. cbn [Slot.with_current Slot.current].
      now rewrite Slot_assign_keeps_slot.
Qed.

(** X11: never more than one metric for a section.  The metric lines that
    a run of the slot script writes to the UDP socket, one echo -n each,
    are at most as many as the header lines of the file; those of the
    multi-field script at most one more, for the lines before the first
    header. *)
Theorem X11_at_most_one_metric_per_section (content : string) :
  length (Slot.udp (snd (Slot.main (Present content)))) <=
    count_headers (read_lines content) /\
  length (Multi.udp (snd (Multi.main (Present content)))) <=
    count_headers (read_lines content) + 1.
Proof.
  split.
  - unfold Slot.main. cbv zeta. cbn [snd]. unfold Slot.log at 1 2.
    cbn [Slot.udp Slot.LOG_ENABLED String.eqb Ascii.eqb Bool.eqb].
    set (s0 := Slot.log _ (Slot.log _ Slot.initial)).
    apply (proj1 (Slot_loop_at_most_one (read_lines content) s0)). reflexivity.
  - unfold Multi.main. cbv zeta. cbn [snd]. unfold Multi.log at 1 2.
    cbn [Multi.udp Multi.LOG_ENABLED String.eqb Ascii.eqb Bool.eqb].
    set (s0 := Multi.log _ (Multi.log _ Multi.initial)).
    rewrite Multi_udp_process_metric, length_app.
    pose proof (Multi_loop_at_most_one (read_lines content) s0).
    pose proof (Multi_emitted_length (Multi.current (Multi.loop (read_lines content) s0))).
    change (length (Multi.udp s0)) with 0 in *. lia.
Qed.

(** *** Reading a gauge line back *)

Lemma cut_f1_app (d : ascii) (a r : string) :
  all_chars (fun c => negb (c =? d)%char) a = true ->
  cut_f1 d (a ++ String d r) = a /\ after_delim d (a ++ String d r) = Some r.
Proof.
  induction a as [|c a IH]; cbn [all_chars append cut_f1 after_delim]; intros H.
  - rewrite Ascii.eqb_refl. now split.
  - apply andb_true_iff in H as [Hc Ha]. apply negb_true_iff in Hc.
    rewrite Hc. destruct (IH Ha) as [-> ->]. now split.
Qed.

Lemma digits_no_bar (s : string) :
  all_chars is_digit s = true ->
  all_chars (fun c => negb (c =? "|")%char) s = true.
Proof.
  induction s as [|c s IH]; cbn [all_chars]; intros H; [reflexivity|].
  apply andb_true_iff in H as [Hc Hs]. rewrite (IH Hs), andb_true_r.
  destruct (Ascii.eqb_spec c "|") as [->|]; [discriminate Hc | reflexivity].
Qed.

(** X12: the name and the value of a gauge line can always be read back.
    Whatever the tags hold, colons, bars and commas included, the text of a
    payload before its first colon is the metric name, and the text from
    there to the first bar is the temperature of the record.  Both
    scripts. *)
Theorem X12_name_and_value_read_back (d : Multi.disk) (d' : Slot.disk) :
  (Multi_valid d = true ->
   cut_f1 ":" (Multi.metric d) = "unraid.disk.temperature" /\
   cut_f1 "|" (cut_f2_on ":" (Multi.metric d)) = Multi.current_temp d) /\
  (Slot_valid d' = true ->
   cut_f1 ":" (Slot.metric d') = "unraid.disk.temperature" /\
   cut_f1 "|" (cut_f2_on ":" (Slot.metric d')) = Slot.current_temp d').
Proof.
  split; intros V.
  - unfold Multi_valid in V. apply andb_true_iff in V as [_ D].
    unfold all_digits in D. apply andb_true_iff in D as [_ D].
    split; [reflexivity|].
    unfold Multi.metric, Multi.metric_name, Multi.METRIC_PREFIX, cut_f2_on.
    cbn [append after_delim Ascii.eqb Bool.eqb].
    apply (proj1 (cut_f1_app "|" _ _ (digits_no_bar _ D))).
  - unfold Slot_valid in V. apply andb_true_iff in V as [_ D].
    unfold all_digits in D. apply andb_true_iff in D as [_ D].
    split; [reflexivity|].
    unfold Slot.metric, Slot.metric_name, Slot.METRIC_PREFIX, cut_f2_on.
    cbn [append after_delim Ascii.eqb Bool.eqb].
    apply (proj1 (cut_f1_app "|" _ _ (digits_no_bar _ D))).
Qed.

Lemma X12_name_and_value_read_back_witness :
  Multi_valid (Multi_record_of parity_block) = true /\
  Multi.metric (Multi_record_of parity_block) =
    "unraid.disk.temperature:38|g|#disk_name:Parity,1:A,disk_id:,disk_type:,device:,transport:" /\
  cut_f1 "|" (cut_f2_on ":" (Multi.metric (Multi_record_of parity_block))) = "38".
Proof.
  destruct (X12_name_and_value_read_back (Multi_record_of parity_block)
              (Slot_record_of parity_block)) as [M _].
  exact (conj eq_refl (conj eq_refl (proj2 (M eq_refl)))).
Defined.

(* ================================================================= *)
(** ** Properties of the file names of the image component *)

Lemma Save_class_stops_at_dot (a b : Save.jstring) :
  forallb Save.in_class (a ++ Save.dot :: b)%list = false.
Proof.
  rewrite forallb_app. cbn [forallb].
  change (Save.in_class Save.dot) with false.
  cbn [andb]. apply andb_false_r.
Qed.

Lemma Save_replace_at_last_dot (stem ext : Save.jstring) :
  ext <> [] -> forallb Save.in_class ext = true ->
  Save.replace_extension (stem ++ Save.dot :: ext)%list = stem.
Proof.
  intros Hn Hc. induction stem as [|u stem IH].
  - destruct ext as [|e ext]; [contradiction|].
    assert (M : Save.matches_here (Save.dot :: e :: ext) = true)
      by (unfold Save.matches_here; now rewrite Hc).
    rewrite app_nil_l. cbn [Save.replace_extension]. now rewrite M.
  - rewrite <- app_comm_cons. cbn [Save.replace_extension].
    assert (M : Save.matches_here (u :: stem ++ Save.dot :: ext)%list = false).
    { unfold Save.matches_here.
      destruct (stem ++ Save.dot :: ext)%list as [|x r] eqn:E.
      - reflexivity.
      - rewrite <- E, Save_class_stops_at_dot. apply andb_false_r. }
    now rewrite M, IH.
Qed.

Lemma Save_replace_without_extension (name : Save.jstring) :
  has_extension name = false -> Save.replace_extension name = name.
Proof.
  induction name as [|u rest IH]; cbn [has_extension Save.replace_extension];
    intros H; [reflexivity|].
  apply orb_false_iff in H as [M R]. now rewrite M, (IH R).
Qed.

Lemma Save_has_extension_iff (name : Save.jstring) :
  has_extension name = true <->
  exists stem ext, name = (stem ++ Save.dot :: ext)%list /\ ext <> [] /\
                   forallb Save.in_class ext = true.
Proof.
  split.
  - induction name as [|u rest IH]; cbn [has_extension]; intros H; [discriminate|].
    apply orb_true_iff in H as [M|R].
    + unfold Save.matches_here in M. destruct rest as [|x r]; [discriminate|].
      apply andb_true_iff in M as [D C]. apply N.eqb_eq in D. subst u.
      exists [], (x :: r). split; [reflexivity|]. split; [discriminate|exact C].
    + destruct (IH R) as (stem & ext & -> & Hn & Hc).
      exists (u :: stem), ext. now split.
  - intros (stem & ext & -> & Hn & Hc). induction stem as [|u stem IH].
    + destruct ext as [|e ext]; [contradiction|].
      assert (M : Save.matches_here (Save.dot :: e :: ext) = true)
        by (unfold Save.matches_here; now rewrite Hc).
      rewrite app_nil_l. cbn [has_extension]. now rewrite M.
    + rewrite <- app_comm_cons. cbn [has_extension]. rewrite IH. apply orb_true_r.
Qed.

(** X13: the name handleSave offers.  A name that ends in a dot and an
    extension of one unit or more, none of them a dot or a slash, is offered
    with that last extension replaced by .jpg, earlier dots kept; any other
    name (no dot, a dot at the very end, a slash after the last dot) is
    offered whole with .jpg added.  These are all the cases. *)
Theorem X13_download_name :
  (forall stem ext,
     ext <> [] -> forallb Save.in_class ext = true ->
     Save.download_name (stem ++ Save.dot :: ext)%list =
       (stem ++ Save.units ".jpg")%list) /\
  (forall name,
     has_extension name = false ->
     Save.download_name name = (name ++ Save.units ".jpg")%list) /\
  (forall name,
     has_extension name = true <->
     exists stem ext, name = (stem ++ Save.dot :: ext)%list /\ ext <> [] /\
                      forallb Save.in_class ext = true).
Proof.
  split; [|split].
  - intros stem ext Hn Hc. unfold Save.download_name.
    now rewrite (Save_replace_at_last_dot _ _ Hn Hc).
  - intros name H. unfold Save.download_name.
    now rewrite (Save_replace_without_extension _ H).
  - apply Save_has_extension_iff.
Qed.

Lemma X13_download_name_witness :
  Save.download_name (Save.units "scene.tar.exr") = Save.units "scene.tar.jpg" /\
  Save.download_name (Save.units "README") = Save.units "README.jpg" /\
  Save.download_name (Save.units "scene.") = Save.units "scene..jpg" /\
  Save.download_name (Save.units "v1.0/scene") = Save.units "v1.0/scene.jpg" /\
  Save.download_name (Save.units ".exr") = Save.units ".jpg".
Proof.
  destruct X13_download_name as (A & B & _).
  refine (conj _ (conj (B (Save.units "README") eq_refl)
           (conj (B (Save.units "scene.") eq_refl)
             (conj (B (Save.units "v1.0/scene") eq_refl) _)))).
  - refine (A (Save.units "scene.tar") (Save.units "exr") _ eq_refl). discriminate.
  - refine (A [] (Save.units "exr") _ eq_refl). discriminate.
Defined.

Lemma Save_endsWith_app (stem search : Save.jstring) :
  Save.endsWith (stem ++ search)%list search = true.
Proof.
  unfold Save.endsWith. rewrite length_app.
  replace (length stem + length search - length search) with (length stem) by lia.
  rewrite skipn_app, skipn_all, Nat.sub_diag, skipn_O, app_nil_l.
  apply andb_true_iff. split; [apply Nat.leb_le; lia|].
  clear stem. induction search as [|u search IH]; [reflexivity|].
  simpl combine. simpl forallb. now rewrite N.eqb_refl, IH.
Qed.

(** X14: the names the EXR loader is picked for.  A name that ends in .exr
    is read with the EXR loader and offered for download with .exr replaced
    by .jpg. *)
Theorem X14_exr_names (stem : Save.jstring) :
  Save.choose_loader (stem ++ Save.units ".exr")%list = Save.EXRLoader /\
  Save.download_name (stem ++ Save.units ".exr")%list = (stem ++ Save.units ".jpg")%list.
Proof.
  split.
  - unfold Save.choose_loader. now rewrite Save_endsWith_app.
  - unfold Save.download_name.
    change (Save.units ".exr") with (Save.dot :: Save.units "exr").
    rewrite Save_replace_at_last_dot; [reflexivity|discriminate|reflexivity].
Qed.

(* ================================================================= *)
(** ** Properties of the metric lines written *)

(** *** The filters keep what holds of every character *)


Lemma all_chars_ltrim (P : ascii -> bool) (s : string) :
  all_chars P s = true -> all_chars P (ltrim s) = true.
Proof.
  induction s as [|c s IH]; cbn [ltrim]; intros H; [reflexivity|].
  destruct (is_space c); [|exact H].
  cbn [all_chars] in H. apply andb_true_iff in H as [_ H]. exact (IH H).
Qed.

Lemma all_chars_rtrim (P : ascii -> bool) (s : string) :
  all_chars P s = true -> all_chars P (rtrim s) = true.
Proof.
  induction s as [|c s IH]; cbn [rtrim all_chars]; intros H; [reflexivity|].
  apply andb_true_iff in H as [Hc Hs]. specialize (IH Hs).
  destruct (rtrim s) as [|x r].
  - destruct (is_space c); cbn [all_chars]; [reflexivity | now rewrite Hc].
  - cbn [all_chars] in *. now rewrite Hc, IH.
Qed.

Lemma all_chars_echo (P : ascii -> bool) (s : string) :
  all_chars P s = true -> all_chars P (echo s) = true.
Proof. unfold echo. now destruct (is_echo_option s). Qed.

Lemma all_chars_cut_f1 (P : ascii -> bool) (d : ascii) (s : string) :
  all_chars P s = true -> all_chars P (cut_f1 d s) = true.
Proof.
  induction s as [|c s IH]; cbn [cut_f1 all_chars]; intros H; [reflexivity|].
  apply andb_true_iff in H as [Hc Hs].
  destruct (c =? d)%char; cbn [all_chars]; [reflexivity | now rewrite Hc, (IH Hs)].
Qed.

Lemma all_chars_after_delim (P : ascii -> bool) (d : ascii) (s r : string) :
  all_chars P s = true -> after_delim d s = Some r -> all_chars P r = true.
Proof.
  induction s as [|c s IH]; cbn [after_delim all_chars]; intros H E; [discriminate|].
  apply andb_true_iff in H as [Hc Hs].
  destruct (c =? d)%char; [now inversion E; subst | exact (IH Hs E)].
Qed.

Lemma all_chars_cut_f2_on (P : ascii -> bool) (d : ascii) (s : string) :
  all_chars P s = true -> all_chars P (cut_f2_on d s) = true.
Proof.
  intros H. unfold cut_f2_on. destruct (after_delim d s) as [r|] eqn:E; [|exact H].
  exact (all_chars_after_delim _ _ _ _ H E).
Qed.

Lemma all_chars_cut_f2 (P : ascii -> bool) (d : ascii) (s : string) :
  all_chars P s = true -> all_chars P (cut_f2 d s) = true.
Proof.
  intros H. unfold cut_f2. destruct (after_delim d s) as [r|] eqn:E; [|exact H].
  apply all_chars_cut_f1. exact (all_chars_after_delim _ _ _ _ H E).
Qed.

Lemma all_chars_tr_d (P del : ascii -> bool) (s : string) :
  all_chars P s = true -> all_chars P (tr_d del s) = true.
Proof.
  induction s as [|c s IH]; cbn [tr_d all_chars]; intros H; [reflexivity|].
  apply andb_true_iff in H as [Hc Hs].
  destruct (del c); cbn [all_chars]; [exact (IH Hs) | now rewrite Hc, (IH Hs)].
Qed.



Lemma no_newline_clean (l : string) :
  has_no_newline l = true -> has_no_newline (sed_trim (echo l)) = true.
Proof.
  intros H. unfold has_no_newline, sed_trim.
  apply all_chars_rtrim, all_chars_ltrim, all_chars_echo. exact H.
Qed.

Lemma is_line_no_newline (l : string) :
  is_line l = true -> has_no_newline l = true.
Proof.
  unfold is_line, has_no_newline.
  induction l as [|c l IH]; cbn [all_chars]; intros H; [reflexivity|].
  apply andb_true_iff in H as [Hc Hl]. unfold is_line_char in Hc.
  apply andb_true_iff in Hc as [Hc _]. now rewrite Hc, (IH Hl).
Qed.

Lemma read_lines_no_newlines (content : string) :
  forallb has_no_newline (read_lines content) = true.
Proof.
  pose proof (read_lines_are_lines content) as H.
  induction (read_lines content) as [|l ls IH]; [reflexivity|].
  cbn [forallb] in *. apply andb_true_iff in H as [Hl Hls].
  now rewrite (is_line_no_newline _ Hl), (IH Hls).
Qed.

(** *** The line process_metric builds *)

Lemma Multi_metric_gauge_line (d : Multi.disk) :
  Multi.metric d =
  gauge_line Multi.METRIC_PREFIX (Multi.current_temp d) (Multi.current_name d)
    (tr_lower (echo (Multi.current_id d))) (tr_lower (echo (Multi.current_type d)))
    (Multi.current_device d) (Multi.current_transport d)
    (kind_suffix (Multi.current_rotational d)).
Proof.
  unfold Multi.metric. rewrite Multi_tags_suffix.
  unfold gauge_line, kind_suffix, Multi.base_tags, Multi.metric_name,
         Multi.METRIC_PREFIX, Multi.sanitized_id, Multi.type_tag.
  repeat (rewrite string_app_assoc; cbn [append]). reflexivity.
Qed.

Lemma Multi_metric_tag_list (d : Multi.disk) :
  Multi.metric d =
  "unraid.disk.temperature:" ++ Multi.current_temp d ++ "|g|#" ++
  render_tags ([ ("disk_name", Multi.current_name d);
                 ("disk_id", tr_lower (echo (Multi.current_id d)));
                 ("disk_type", tr_lower (echo (Multi.current_type d)));
                 ("device", Multi.current_device d);
                 ("transport", Multi.current_transport d) ] ++
               kind_tag (Multi.current_rotational d)).
Proof.
  rewrite Multi_metric_gauge_line.
  unfold gauge_line, kind_suffix, kind_tag, Multi.METRIC_PREFIX.
  destruct (Multi.current_rotational d =? "1");
    [|destruct (Multi.current_rotational d =? "0")];
    cbn [app render_tags append];
    repeat (rewrite string_app_assoc; cbn [append]);
    rewrite ?string_app_nil_r; reflexivity.
Qed.


Lemma Slot_metric_tag_list (d : Slot.disk) :
  Slot.metric d =
  "unraid.disk.temperature:" ++ Slot.current_temp d ++ "|g|#" ++
  render_tags [ ("disk_slot", Slot.current_slot d);
                ("disk_id", Slot.current_id d);
                ("disk_type", tr_lower (echo (Slot.current_type d))) ].
Proof. reflexivity. Qed.


Lemma kind_tag_in (r k v : string) :
  In (k, v) (kind_tag r) <->
  k = "drive_kind" /\ ((r = "1" /\ v = "hdd") \/ (r = "0" /\ v = "ssd")).
Proof.
  unfold kind_tag.
  destruct (String.eqb_spec r "1") as [->|N1];
    [|destruct (String.eqb_spec r "0") as [->|N0]]; cbn [In]; split.
  - intros [E|[]]. inversion E. auto.
  - intros (-> & [[_ ->]|[E _]]); [now left | discriminate E].
  - intros [E|[]]. inversion E. auto.
  - intros (-> & [[E _]|[_ ->]]); [discriminate E | now left].
  - intros [].
  - intros (_ & [[E _]|[E _]]); contradiction.
Qed.



(** *** Every write of a run is the line of a valid record *)

Lemma Multi_value_no_newline (l : string) :
  has_no_newline l = true ->
  has_no_newline (Multi.value_of (Multi.clean l)) = true.
Proof.
  intros H. unfold Multi.value_of, Multi.clean, has_no_newline.
  apply all_chars_tr_d, all_chars_cut_f2_on, all_chars_echo.
  exact (no_newline_clean _ H).
Qed.

Lemma Multi_assign_no_newline (key value : string) (d : Multi.disk) :
  has_no_newline value = true ->
  Multi_fields_no_newline d = true ->
  Multi_fields_no_newline (Multi.assign key value d) = true.
Proof.
  destruct d as [n i t ty dev tr rot].
  unfold Multi_fields_no_newline, Multi.assign.
  cbn [Multi.current_name Multi.current_id Multi.current_temp Multi.current_type
       Multi.current_device Multi.current_transport Multi.current_rotational].
  intros Hv H.
  apply andb_true_iff in H as [H Hrot]. apply andb_true_iff in H as [H Htr].
  apply andb_true_iff in H as [H Hdev]. apply andb_true_iff in H as [H Hty].
  apply andb_true_iff in H as [H Ht]. apply andb_true_iff in H as [Hn Hi].
  repeat match goal with
         | |- context [String.eqb key ?lit] => destruct (String.eqb key lit)
         end;
    cbn [Multi.current_name Multi.current_id Multi.current_temp Multi.current_type
         Multi.current_device Multi.current_transport Multi.current_rotational];
    now rewrite ?Hv, ?Hn, ?Hi, ?Ht, ?Hty, ?Hdev, ?Htr, ?Hrot.
Qed.

Lemma Multi_emitted_of_record (d : Multi.disk) :
  Multi_fields_no_newline d = true ->
  Forall Multi_write_of_record (Multi_emitted d).
Proof.
  intros Q. unfold Multi_emitted. destruct (Multi_valid d) eqn:V; constructor.
  - exists d. now repeat split.
  - constructor.
Qed.

Lemma Multi_loop_writes (ls : list string) :
  forall st,
    forallb has_no_newline ls = true ->
    Multi_fields_no_newline (Multi.current st) = true ->
    Forall Multi_write_of_record (Multi.udp st) ->
    Forall Multi_write_of_record (Multi.udp (Multi.loop ls st)) /\
    Multi_fields_no_newline (Multi.current (Multi.loop ls st)) = true.
Proof.
  induction ls as [|l ls IH]; intros st H Q U; [now split|].
  cbn [forallb] in H. apply andb_true_iff in H as [Hl Hls].
  rewrite Multi_loop_cons. apply (IH _ Hls).
  - destruct (header_line l) eqn:Hh.
    + now rewrite (Multi_step_header _ _ Hh).
    + rewrite (Multi_step_body _ _ Hh). cbn [Multi.with_current Multi.current].
      apply Multi_assign_no_newline; [apply (Multi_value_no_newline _ Hl) | exact Q].
  - destruct (header_line l) eqn:Hh.
    + rewrite (Multi_step_header _ _ Hh). cbn [Multi.with_current Multi.udp].
      rewrite Multi_udp_process_metric. apply Forall_app.
      split; [exact U | apply (Multi_emitted_of_record _ Q)].
    + rewrite (Multi_step_body _ _ Hh). exact U.
Qed.

Lemma Multi_run_writes (f : disks_ini) :
  Forall Multi_write_of_record (Multi.udp (snd (Multi.main f))).
Proof.
  destruct f as [|content]; [constructor|].
  unfold Multi.main. cbv zeta. cbn [snd]. unfold Multi.log at 1 2.
  cbn [Multi.udp Multi.LOG_ENABLED String.eqb Ascii.eqb Bool.eqb].
  set (s0 := Multi.log _ (Multi.log _ Multi.initial)).
  destruct (Multi_loop_writes (read_lines content) s0
              (read_lines_no_newlines content) eq_refl (Forall_nil _)) as [U Q].
  rewrite Multi_udp_process_metric. apply Forall_app.
  split; [exact U | apply (Multi_emitted_of_record _ Q)].
Qed.

Lemma Slot_value_no_newline (cl : string) :
  has_no_newline cl = true -> has_no_newline (Slot.value_of cl) = true.
Proof.
  intros H. unfold Slot.value_of, has_no_newline.
  apply all_chars_tr_d, all_chars_cut_f2, all_chars_echo. exact H.
Qed.

Lemma Slot_assign_no_newline (cl : string) (d : Slot.disk) :
  has_no_newline cl = true ->
  Slot_fields_no_newline d = true ->
  Slot_fields_no_newline (Slot.assign cl d) = true.
Proof.
  destruct d as [sl i t ty].
  unfold Slot_fields_no_newline, Slot.assign.
  cbn [Slot.current_slot Slot.current_id Slot.current_temp Slot.current_type].
  intros Hc H. pose proof (Slot_value_no_newline _ Hc) as Hv.
  apply andb_true_iff in H as [H Hty]. apply andb_true_iff in H as [H Ht].
  apply andb_true_iff in H as [Hs Hi].
  destruct (prefix "id=" cl); [|destruct (prefix "temp=" cl);
                                 [|destruct (prefix "type=" cl)]];
    cbn [Slot.current_slot Slot.current_id Slot.current_temp Slot.current_type];
    now rewrite ?Hv, ?Hs, ?Hi, ?Ht, ?Hty.
Qed.

Lemma Slot_emitted_of_record (d : Slot.disk) :
  Slot_fields_no_newline d = true ->
  Forall Slot_write_of_record (Slot_emitted d).
Proof.
  intros Q. unfold Slot_emitted. destruct (Slot_valid d) eqn:V; constructor.
  - exists d. now repeat split.
  - constructor.
Qed.

Lemma Slot_loop_writes (ls : list string) :
  forall st,
    forallb has_no_newline ls = true ->
    Slot_fields_no_newline (Slot.current st) = true ->
    Forall Slot_write_of_record (Slot.udp st) ->
    Forall Slot_write_of_record (Slot.udp (Slot.loop ls st)) /\
    Slot_fields_no_newline (Slot.current (Slot.loop ls st)) = true.
Proof.
  induction ls as [|l ls IH]; intros st H Q U; [now split|].
  cbn [forallb] in H. apply andb_true_iff in H as [Hl Hls].
  pose proof (no_newline_clean _ Hl) as Hc.
  rewrite Slot_loop_cons. apply (IH _ Hls).
  - destruct (header_line l) eqn:Hh.
    + rewrite (Slot_step_header _ _ Hh). cbn [Slot.with_current Slot.current].
      unfold Slot_fields_no_newline.
      cbn [Slot.current_slot Slot.current_id Slot.current_temp Slot.current_type].
      rewrite !andb_true_r. unfold Slot.slot_of, Slot.clean, has_no_newline.
      apply all_chars_tr_d, all_chars_echo. exact Hc.
    + rewrite (Slot_step_body _ _ Hh). cbn [Slot.with_current Slot.current].
      apply Slot_assign_no_newline; [exact Hc | exact Q].
  - destruct (header_line l) eqn:Hh.
    + rewrite (Slot_step_header _ _ Hh). cbn [Slot.with_current Slot.udp].
      rewrite Slot_udp_process_metric. apply Forall_app.
      split; [exact U | apply (Slot_emitted_of_record _ Q)].
    + rewrite (Slot_step_body _ _ Hh). exact U.
Qed.

Lemma Slot_run_writes (f : disks_ini) :
  Forall Slot_write_of_record (Slot.udp (snd (Slot.main f))).
Proof.
  destruct f as [|content]; [constructor|].
  unfold Slot.main. cbv zeta. cbn [snd]. unfold Slot.log at 1 2.
  cbn [Slot.udp Slot.LOG_ENABLED String.eqb Ascii.eqb Bool.eqb].
  set (s0 := Slot.log _ (Slot.log _ Slot.initial)).
  destruct (Slot_loop_writes (read_lines content) s0
              (read_lines_no_newlines content) eq_refl (Forall_nil _)) as [U Q].
  rewrite Slot_udp_process_metric. apply Forall_app.
  split; [exact U | apply (Slot_emitted_of_record _ Q)].
Qed.

Lemma Multi_process_metric_sends (st : Multi.state) :
  Multi_valid (Multi.current st) = true ->
  Multi.udp (Multi.process_metric st) =
  (Multi.udp st ++
   [UdpWrite Multi.DATADOG_HOST Multi.DATADOG_PORT
      (Multi.metric (Multi.current st))])%list.
Proof.
  intros V. rewrite Multi_udp_process_metric. unfold Multi_emitted. now rewrite V.
Qed.

Lemma Slot_process_metric_sends (st : Slot.state) :
  Slot_valid (Slot.current st) = true ->
  Slot.udp (Slot.process_metric st) =
  (Slot.udp st ++
   [UdpWrite Slot.DATADOG_HOST Slot.DATADOG_PORT
      (Slot.metric (Slot.current st))])%list.
Proof.
  intros V. rewrite Slot_udp_process_metric. unfold Slot_emitted. now rewrite V.
Qed.



(** *** The format of the line (C4) *)




(** *** The drive_kind tag (C5) *)



(** *** The values of the tags (C2) *)

(** C2, as the scripts have it: the line that process_metric builds and,
    for a valid record, sends carries the tags with these values.  The
    disk_type value and, in the multi-field script, the disk_id value come
    out of the lowercasing filter and hold no capital letter; drive_kind,
    when there, is hdd or ssd.  The identifier, the device and the
    transport (and the disk_id of the slot script) are the recorded values
    as they are.  Every write of every run is such a line. *)
Theorem C2_lowercased_tag_values
    (f : disks_ini) (st : Multi.state) (st' : Slot.state) :
  ((forall d,
      Multi.metric d =
      "unraid.disk.temperature:" ++ Multi.current_temp d ++ "|g|#" ++
      render_tags ([ ("disk_name", Multi.current_name d);
                     ("disk_id", tr_lower (echo (Multi.current_id d)));
                     ("disk_type", tr_lower (echo (Multi.current_type d)));
                     ("device", Multi.current_device d);
                     ("transport", Multi.current_transport d) ] ++
                   kind_tag (Multi.current_rotational d))) /\
   (forall x, no_upper (tr_lower (echo x)) = true) /\
   (forall r k v, In (k, v) (kind_tag r) ->
                  k = "drive_kind" /\ (v = "hdd" \/ v = "ssd")) /\
   (Multi_valid (Multi.current st) = true ->
    Multi.udp (Multi.process_metric st) =
      (Multi.udp st ++
       [UdpWrite Multi.DATADOG_HOST Multi.DATADOG_PORT
          (Multi.metric (Multi.current st))])%list) /\
   Forall (fun g => exists d,
             Multi_valid d = true /\
             g = UdpWrite Multi.DATADOG_HOST Multi.DATADOG_PORT (Multi.metric d))
          (Multi.udp (snd (Multi.main f)))) /\
  ((forall d,
      Slot.metric d =
      "unraid.disk.temperature:" ++ Slot.current_temp d ++ "|g|#" ++
      render_tags [ ("disk_slot", Slot.current_slot d);
                    ("disk_id", Slot.current_id d);
                    ("disk_type", tr_lower (echo (Slot.current_type d))) ]) /\
   (Slot_valid (Slot.current st') = true ->
    Slot.udp (Slot.process_metric st') =
      (Slot.udp st' ++
       [UdpWrite Slot.DATADOG_HOST Slot.DATADOG_PORT
          (Slot.metric (Slot.current st'))])%list) /\
   Forall (fun g => exists d,
             Slot_valid d = true /\
             g = UdpWrite Slot.DATADOG_HOST Slot.DATADOG_PORT (Slot.metric d))
          (Slot.udp (snd (Slot.main f)))).
Proof.
  split; [split; [|split; [|split; [|split]]] | split; [|split]].
  - apply Multi_metric_tag_list.
  - intros x. apply tr_lower_no_upper.
  - intros r k v H. apply kind_tag_in in H as [-> [[_ ->]|[_ ->]]]; auto.
  - apply Multi_process_metric_sends.
  - apply (Forall_impl _ (P := Multi_write_of_record)); [|apply Multi_run_writes].
    intros g (d & V & _ & ->). now exists d.
  - apply Slot_metric_tag_list.
  - apply Slot_process_metric_sends.
  - apply (Forall_impl _ (P := Slot_write_of_record)); [|apply Slot_run_writes].
    intros g (d & V & _ & ->). now exists d.
Qed.

Lemma C2_lowercased_tag_values_witness :
  Multi_valid (Multi_record_of disk1_block) = true /\
  Slot_valid (Slot_record_of disk1_block) = true /\
  Multi.udp (Multi.process_metric
               (Multi.with_current (Multi_record_of disk1_block) Multi.initial)) =
    [ UdpWrite "localhost" "8125"
        "unraid.disk.temperature:38|g|#disk_name:disk1,disk_id:wd-1,disk_type:data,device:,transport:,drive_kind:hdd" ] /\
  Slot.udp (Slot.process_metric
              (Slot.with_current (Slot_record_of disk1_block) Slot.initial)) =
    [ UdpWrite "localhost" "8125"
        "unraid.disk.temperature:38|g|#disk_slot:disk1,disk_id:WD-1,disk_type:data" ].
Proof.
  destruct (C2_lowercased_tag_values Absent
              (Multi.with_current (Multi_record_of disk1_block) Multi.initial)
              (Slot.with_current (Slot_record_of disk1_block) Slot.initial))
    as ((_ & _ & _ & M & _) & (_ & S & _)).
  exact (conj eq_refl (conj eq_refl (conj (M eq_refl) (S eq_refl)))).
Defined.


(* ================================================================= *)
(** ** A last line that no newline ends (C1, C6) *)

Lemma read_lines_unterminated (ls : list string) (last : string) :
  forallb is_line ls = true -> is_line last = true ->
  read_lines (unterminated ls last) = ls.
Proof.
  unfold unterminated. induction ls as [|l ls IH]; cbn [unlines forallb]; intros H L.
  - apply (read_lines_drops_unterminated _ L).
  - apply andb_true_iff in H as [Hl Hls].
    rewrite string_app_assoc. cbn [append].
    now rewrite (read_lines_line _ _ Hl), (IH Hls L).
Qed.

(** C1 fails on a file whose last line is not ended by a newline.  The
    loop body runs only for the lines that read returns with status 0, and
    at the end of such a file read returns the text of the last line with
    status 1: the line is never assigned, and the call of process_metric
    that follows the loop sees the record without it.  So a run on a file
    of complete lines followed by an unterminated one is the run on the
    complete lines alone.  The file of one section [disk1], name=disk1,
    temp=38 whose temp line has no newline sends no metric in either
    script, where the same lines each ended by a newline send one, and
    where the file followed by a newline and a header line sends one. *)
Theorem C1_unterminated_last_line :
  (forall ls last,
     forallb is_line ls = true -> is_line last = true ->
     read_lines (unterminated ls last) = ls /\
     Multi.main (Present (unterminated ls last)) = Multi.main (Present (unlines ls)) /\
     Slot.main (Present (unterminated ls last)) = Slot.main (Present (unlines ls))) /\
  (Multi.written
     (snd (Multi.main (Present (unterminated disk1_head ("temp=" ++ quoted "38"))))) = [] /\
   Multi.disk_count
     (snd (Multi.main (Present (unterminated disk1_head ("temp=" ++ quoted "38"))))) = 0 /\
   Multi.written
     (snd (Multi.main (Present (unlines (disk1_head ++ ["temp=" ++ quoted "38"]))))) =
     [ "unraid.disk.temperature:38|g|#disk_name:disk1,disk_id:,disk_type:,device:,transport:" ] /\
   Multi.written
     (snd (Multi.main
             (Present (unterminated disk1_head ("temp=" ++ quoted "38") ++
                       String LF (unlines [header_of "cache"]))))) =
     [ "unraid.disk.temperature:38|g|#disk_name:disk1,disk_id:,disk_type:,device:,transport:" ]) /\
  (Slot.written
     (snd (Slot.main (Present (unterminated disk1_head ("temp=" ++ quoted "38"))))) = [] /\
   Slot.disk_count
     (snd (Slot.main (Present (unterminated disk1_head ("temp=" ++ quoted "38"))))) = 0 /\
   Slot.written
     (snd (Slot.main (Present (unlines (disk1_head ++ ["temp=" ++ quoted "38"]))))) =
     [ "unraid.disk.temperature:38|g|#disk_slot:disk1,disk_id:,disk_type:" ] /\
   Slot.written
     (snd (Slot.main
             (Present (unterminated disk1_head ("temp=" ++ quoted "38") ++
                       String LF (unlines [header_of "cache"]))))) =
     [ "unraid.disk.temperature:38|g|#disk_slot:disk1,disk_id:,disk_type:" ]).
Proof.
  split; [|split; repeat split; reflexivity].
  intros ls last H L.
  pose proof (read_lines_unterminated _ _ H L) as R.
  split; [exact R|].
  unfold Multi.main, Slot.main. cbv zeta.
  rewrite R, (read_lines_unlines _ H). split; reflexivity.
Qed.

(** C6 fails on the same files as C1: with two sections, each with an
    identifier and an all-digit temperature, the second one having its
    temp line last and not ended by a newline, the scripts send the metric
    of the first section only, one metric for two sections.  With the
    newline there they send the two, in the order of the sections. *)
Theorem C6_unterminated_second_section :
  (Multi.written
     (snd (Multi.main
             (Present (unterminated
                         (render [disk1_block] ++
                          [header cache_short_block; "name=" ++ quoted "cache"])
                         ("temp=" ++ quoted "41"))))) =
     [ "unraid.disk.temperature:38|g|#disk_name:disk1,disk_id:wd-1,disk_type:data,device:,transport:,drive_kind:hdd" ] /\
   Multi.written (snd (Multi.main (file_of [disk1_block; cache_short_block]))) =
     [ "unraid.disk.temperature:38|g|#disk_name:disk1,disk_id:wd-1,disk_type:data,device:,transport:,drive_kind:hdd";
       "unraid.disk.temperature:41|g|#disk_name:cache,disk_id:,disk_type:,device:,transport:" ]) /\
  (Slot.written
     (snd (Slot.main
             (Present (unterminated
                         (render [disk1_block] ++
                          [header cache_short_block; "name=" ++ quoted "cache"])
                         ("temp=" ++ quoted "41"))))) =
     [ "unraid.disk.temperature:38|g|#disk_slot:disk1,disk_id:WD-1,disk_type:data" ] /\
   Slot.written (snd (Slot.main (file_of [disk1_block; cache_short_block]))) =
     [ "unraid.disk.temperature:38|g|#disk_slot:disk1,disk_id:WD-1,disk_type:data";
       "unraid.disk.temperature:41|g|#disk_slot:cache,disk_id:,disk_type:" ]) /\
  forallb wf_block [disk1_block; cache_short_block] = true /\
  forallb (fun b => Multi_valid (Multi_record_of b)) [disk1_block; cache_short_block] = true /\
  forallb (fun b => Slot_valid (Slot_record_of b)) [disk1_block; cache_short_block] = true /\
  unterminated (render [disk1_block] ++
                [header cache_short_block; "name=" ++ quoted "cache"])
               ("temp=" ++ quoted "41") ++ String LF "" =
    match file_of [disk1_block; cache_short_block] with
    | Present c => c
    | Absent => ""
    end.
Proof.
  repeat split; reflexivity.
Qed.
